(** * daily_asteroid: a shallow embedding of [app.py]

    The bot is a sequential script around four external services (the NASA
    feeds reached with [requests], the translator, the Supabase table
    [subscribers] and the Telegram bot with its job queue).  The embedding
    keeps the program's own shape:

    - Python values decoded from JSON are the inductive type [value];
      subscripting, [.get], truthiness, [random.choice], [float] and [int]
      are total functions into [result], whose [Raise] carries the Python
      exception;
    - the handlers run in a state-and-exception monad [M] over a [World]
      (table rows, job queue, error log, trace of the external calls made);
    - what the outside answers is read from an [Env], indexed by the number
      of external interactions made so far, so that every sequence of upstream
      outcomes is one [Env]. *)

From Stdlib Require Import ZArith String Ascii List Bool Lia DecimalString.
From Stdlib Require Import DecimalZ DecimalPos.
From Stdlib Require Import Floats.PrimFloat Floats.SpecFloat Floats.FloatOps.
Import ListNotations.

Set Warnings "-register-all".

Open Scope string_scope.
Open Scope Z_scope.

(** ** Python values, exceptions and builtins *)

Module Py.

(** The exceptions the script can meet.  [KeyErrorIndex] is the [KeyError]
    of a dict asked for an integer key; [External] stands for whatever a
    library call raises (connection errors, API errors, translation errors). *)
Inductive exn : Type :=
| KeyError (key : string)
| KeyErrorIndex (i : nat)
| IndexError (msg : string)
| TypeError (msg : string)
| AttributeError (msg : string)
| ValueError (msg : string)
| OverflowError (msg : string)
| External (msg : string).

(** [str(e)], as the handlers interpolate it in their log lines. *)
Definition str_exn (e : exn) : string :=
  match e with
  | KeyError key => "'" ++ key ++ "'"
  | KeyErrorIndex i => NilZero.string_of_uint (Nat.to_uint i)
  | IndexError msg | TypeError msg | AttributeError msg
  | ValueError msg | OverflowError msg | External msg => msg
  end.

Inductive result (A : Type) : Type :=
| Return (a : A)
| Raise (e : exn).
Arguments Return {A} a.
Arguments Raise {A} e.

Definition rbind {A B : Type} (r : result A) (k : A -> result B) : result B :=
  match r with
  | Return a => k a
  | Raise e => Raise e
  end.

(** What [json()] can hand back: [None], booleans, integers, floats,
    strings, lists and dicts with string keys. *)
Inductive value : Type :=
| VNone
| VBool (b : bool)
| VInt (z : Z)
| VFloat (f : float)
| VStr (s : string)
| VList (l : list value)
| VDict (kv : list (string * value)).

(** [type(v).__name__], as the messages of [TypeError] and
    [AttributeError] quote it. *)
Definition type_name (v : value) : string :=
  match v with
  | VNone => "NoneType"
  | VBool _ => "bool"
  | VInt _ => "int"
  | VFloat _ => "float"
  | VStr _ => "str"
  | VList _ => "list"
  | VDict _ => "dict"
  end.

(** Truth value testing ([if x:], [not x]). *)
Definition truthy (v : value) : bool :=
  match v with
  | VNone => false
  | VBool b => b
  | VInt z => negb (z =? 0)
  | VFloat f => negb (PrimFloat.eqb f 0%float)
  | VStr s => negb (String.eqb s "")
  | VList l => match l with [] => false | _ :: _ => true end
  | VDict kv => match kv with [] => false | _ :: _ => true end
  end.

Fixpoint lookup (key : string) (kv : list (string * value)) : option value :=
  match kv with
  | [] => None
  | (k, v) :: rest => if String.eqb k key then Some v else lookup key rest
  end.

(** [v[key]] with a string key. *)
Definition getitem (v : value) (key : string) : result value :=
  match v with
  | VDict kv =>
      match lookup key kv with
      | Some x => Return x
      | None => Raise (KeyError key)
      end
  | VStr _ => Raise (TypeError "string indices must be integers")
  | VList _ => Raise (TypeError "list indices must be integers or slices, not str")
  | _ => Raise (TypeError ("'" ++ type_name v ++ "' object is not subscriptable"))
  end.

(** [v[i]] with a natural index (the script only uses [0] and the index
    drawn by [random.choice]).  A string is indexed as the sequence of the
    characters of its encoding. *)
Definition getindex (v : value) (i : nat) : result value :=
  match v with
  | VList l =>
      match nth_error l i with
      | Some x => Return x
      | None => Raise (IndexError "list index out of range")
      end
  | VStr s =>
      match String.get i s with
      | Some c => Return (VStr (String c EmptyString))
      | None => Raise (IndexError "string index out of range")
      end
  | VDict _ => Raise (KeyErrorIndex i)
  | _ => Raise (TypeError ("'" ++ type_name v ++ "' object is not subscriptable"))
  end.

(** [v.get(key, default)]: only dicts have the method. *)
Definition dict_get (v : value) (key : string) (default : value) : result value :=
  match v with
  | VDict kv =>
      match lookup key kv with
      | Some x => Return x
      | None => Return default
      end
  | _ => Raise (AttributeError ("'" ++ type_name v ++ "' object has no attribute 'get'"))
  end.

(** [len(v)]; a string counts the characters of its encoding. *)
Definition len (v : value) : result nat :=
  match v with
  | VStr s => Return (String.length s)
  | VList l => Return (List.length l)
  | VDict kv => Return (List.length kv)
  | _ => Raise (TypeError ("object of type '" ++ type_name v ++ "' has no len()"))
  end.

(** [random.choice(seq)] where [r] is the random draw: it takes [len(seq)],
    refuses an empty sequence and returns [seq[randbelow(len(seq))]]. *)
Definition choice (r : nat) (seq : value) : result value :=
  rbind (len seq) (fun n =>
    match n with
    | O => Raise (IndexError "Cannot choose from an empty sequence")
    | S _ => getindex seq (r mod n)%nat
    end).

(** [str(z)] for an integer. *)
Definition str_int (z : Z) : string := NilZero.string_of_int (Z.to_int z).

(** [float(z)] for an integer: round to nearest even, [OverflowError] when
    the integer is beyond the range of a double. *)
Definition float_of_int (z : Z) : result float :=
  let f := SF2Prim (binary_normalize prec emax z 0 false) in
  if PrimFloat.eqb (PrimFloat.abs f) PrimFloat.infinity
  then Raise (OverflowError "int too large to convert to float")
  else Return f.

(** [int(f)] for a float: truncation towards zero; infinities and NaN are
    refused. *)
Definition int_of_float (f : float) : result Z :=
  match Prim2SF f with
  | S754_zero _ => Return 0
  | S754_finite neg m e =>
      let a := if 0 <=? e then Z.shiftl (Z.pos m) e else Z.shiftr (Z.pos m) (- e) in
      Return (if neg then - a else a)
  | S754_infinity _ => Raise (OverflowError "cannot convert float infinity to integer")
  | S754_nan => Raise (ValueError "cannot convert float NaN to integer")
  end.

(** The two builtins that are not modelled bit by bit: parsing a decimal
    text into a double ([float(s)], which raises [ValueError] on a text that
    is no number) and the [str()] of a float, list or dict. *)
Record Builtins : Type := {
  float_of_str : string -> result float;
  repr : value -> string
}.

(** [float(v)]. *)
Definition to_float (py : Builtins) (v : value) : result float :=
  match v with
  | VStr s => float_of_str py s
  | VInt z => float_of_int z
  | VFloat f => Return f
  | VBool b => Return (if b then 1%float else 0%float)
  | _ => Raise (TypeError ("float() argument must be a string or a real number, not '" ++
                           type_name v ++ "'"))
  end.

(** [str(v)], what [f"{v}"] interpolates. *)
Definition str (py : Builtins) (v : value) : string :=
  match v with
  | VStr s => s
  | VNone => "None"
  | VBool true => "True"
  | VBool false => "False"
  | VInt z => str_int z
  | _ => repr py v
  end.

(** [f"{z:,}"]: decimal digits grouped by three from the right. *)
Fixpoint group3 (digits_rev : list ascii) (k : nat) : list ascii :=
  match digits_rev with
  | [] => []
  | d :: rest =>
      match k, rest with
      | O, _ :: _ => d :: ","%char :: group3 rest 2
      | O, [] => [d]
      | S k', _ => d :: group3 rest k'
      end
  end.

Definition format_thousands (z : Z) : string :=
  let digits := list_ascii_of_string (NilZero.string_of_uint (N.to_uint (Z.abs_N z))) in
  let grouped := string_of_list_ascii (rev (group3 (rev digits) 2)) in
  if z <? 0 then "-" ++ grouped else grouped.

End Py.

(** ** The world the script runs in *)

Module App.
Import Py.

(** [time(hour=.., minute=.., tzinfo=timezone(timedelta(hours=..)))]. *)
Record Time : Type := {
  hour : Z;
  minute : Z;
  utcoffset_hours : Z
}.

(** The callbacks a job can be bound to: the script has one. *)
Inductive Callback : Type :=
| SendPeriodicMessage.

(** A job of the queue, as [run_daily] creates it.  [job_id] is the
    scheduler's own identifier of the job: [schedule_removal] finds the job
    by it. *)
Record Job : Type := {
  job_id : nat;
  callback : Callback;
  time : Time;
  data : Z;
  name : string
}.

Record JobQueue : Type := {
  next_id : nat;
  jobs : list Job
}.

(** The external calls of the script, in the order they are made. *)
Inductive event : Type :=
| HttpGet (url : string)
| Translate (texto : string)
| DbInsert (chat_id : Z)
| DbDelete (chat_id : Z)
| DbSelect
| SendPhoto (chat_id : Z) (photo : value) (caption : string)
| SendMessage (chat_id : Z) (text : string)
| ReplyText (chat_id : Z) (text : string).

Record World : Type := {
  clock : nat;                   (* interactions with the outside so far *)
  subscribers : list Z;          (* column chat_id of the rows of table subscribers *)
  job_queue : option JobQueue;   (* context.job_queue, None when not installed *)
  log : list string;             (* what logger.error wrote *)
  trace : list event             (* external calls made *)
}.

(** [requests.Response]: [status_code] and what [json()] does. *)
Record Response : Type := {
  status_code : Z;
  json : result value
}.

(** What the outside does at interaction number [t]. *)
Record Env : Type := {
  API_KEY : string;
  now : nat -> string;                             (* datetime.now().strftime("%Y-%m-%d") *)
  random : nat -> nat;                             (* the draw of the generator *)
  requests_get : nat -> string -> result Response;
  translate : nat -> string -> result string;      (* GoogleTranslator(en, pt).translate *)
  supabase_execute : nat -> option exn;            (* None: the request went through *)
  bot_send : nat -> option exn                     (* None: Telegram accepted the call *)
}.

(** [update.effective_chat.id]; [reply_text] answers in that chat. *)
Record Update : Type := {
  effective_chat_id : Z
}.

(** [context.job] is the job that fired, [None] inside a command handler. *)
Record CallbackContext : Type := {
  job : option Job
}.

(** *** State and exception monad *)

Definition M (A : Type) : Type := World -> result A * World.

Definition ret {A : Type} (a : A) : M A := fun w => (Return a, w).

Definition raise {A : Type} (e : exn) : M A := fun w => (Raise e, w).

Definition bind {A B : Type} (m : M A) (k : A -> M B) : M B :=
  fun w =>
    match m w with
    | (Return a, w') => k a w'
    | (Raise e, w') => (Raise e, w')
    end.

(** [try: m  except Exception as e: h e]; what [m] did before raising stays
    done. *)
Definition try_except {A : Type} (m : M A) (h : exn -> M A) : M A :=
  fun w =>
    match m w with
    | (Return a, w') => (Return a, w')
    | (Raise e, w') => h e w'
    end.

Definition lift {A : Type} (r : result A) : M A := fun w => (r, w).

Declare Scope py_scope.
Delimit Scope py_scope with py.
Notation "x <- m ;; k" := (bind m (fun x => k))
  (at level 61, m at next level, right associativity) : py_scope.
Notation "m ;; k" := (bind m (fun _ => k))
  (at level 61, right associativity) : py_scope.
Open Scope py_scope.

Definition set_clock (n : nat) (w : World) : World :=
  {| clock := n; subscribers := subscribers w; job_queue := job_queue w;
     log := log w; trace := trace w |}.

Definition set_subscribers (rows : list Z) (w : World) : World :=
  {| clock := clock w; subscribers := rows; job_queue := job_queue w;
     log := log w; trace := trace w |}.

Definition set_job_queue (q : option JobQueue) (w : World) : World :=
  {| clock := clock w; subscribers := subscribers w; job_queue := q;
     log := log w; trace := trace w |}.

Definition set_log (l : list string) (w : World) : World :=
  {| clock := clock w; subscribers := subscribers w; job_queue := job_queue w;
     log := l; trace := trace w |}.

Definition set_trace (tr : list event) (w : World) : World :=
  {| clock := clock w; subscribers := subscribers w; job_queue := job_queue w;
     log := log w; trace := tr |}.

(** [logger.error(msg)]. *)
Definition logger_error (msg : string) : M unit :=
  fun w => (Return tt, set_log (log w ++ [msg]) w).

(** One interaction with the outside: its number, and the clock moves on. *)
Definition fresh : M nat :=
  fun w => (Return (clock w), set_clock (S (clock w)) w).

Definition emit (ev : event) : M unit :=
  fun w => (Return tt, set_trace (trace w ++ [ev]) w).

Definition nl : string := String (ascii_of_nat 10) EmptyString.

Section Script.

Variable py : Builtins.
Variable env : Env.

(** *** The external services

    Every call moves the clock and enters the trace, then succeeds or raises
    as the [Env] says.  A store call that raises leaves the table as it was:
    each insert, delete or select goes through or fails as a whole. *)

(** [supabase.table("subscribers").insert({"chat_id": chat_id}).execute()] *)
Definition supabase_insert (chat_id : Z) : M unit :=
  t <- fresh ;;
  emit (DbInsert chat_id) ;;
  match supabase_execute env t with
  | Some e => raise e
  | None => fun w => (Return tt, set_subscribers (subscribers w ++ [chat_id]) w)
  end.

(** [supabase.table("subscribers").delete().eq("chat_id", chat_id).execute()] *)
Definition supabase_delete (chat_id : Z) : M unit :=
  t <- fresh ;;
  emit (DbDelete chat_id) ;;
  match supabase_execute env t with
  | Some e => raise e
  | None =>
      fun w => (Return tt,
                set_subscribers (filter (fun row => negb (row =? chat_id)) (subscribers w)) w)
  end.

(** [supabase.table("subscribers").select("chat_id").execute()] and the
    comprehension over [response.data]. *)
Definition supabase_select : M (list Z) :=
  t <- fresh ;;
  emit DbSelect ;;
  match supabase_execute env t with
  | Some e => raise e
  | None => fun w => (Return (subscribers w), w)
  end.

(** A call of the bot API: the trace keeps the call, Telegram may refuse. *)
Definition bot_call (ev : event) : M unit :=
  t <- fresh ;;
  emit ev ;;
  match bot_send env t with
  | Some e => raise e
  | None => ret tt
  end.

Definition http_get (url : string) : M Response :=
  t <- fresh ;;
  emit (HttpGet url) ;;
  lift (requests_get env t url).

Definition google_translate (texto : string) : M string :=
  t <- fresh ;;
  emit (Translate texto) ;;
  lift (translate env t texto).

(** [random.choice(seq)] *)
Definition random_choice (seq : value) : M value :=
  t <- fresh ;;
  lift (choice (random env t) seq).

(** [datetime.now().strftime("%Y-%m-%d")] *)
Definition today : M string :=
  t <- fresh ;;
  ret (now env t).

(** [context.job_queue.run_daily(callback, time, data, name)] *)
Definition run_daily (cb : Callback) (tm : Time) (d : Z) (nm : string) : M unit :=
  fun w =>
    match job_queue w with
    | None => (Raise (AttributeError "'NoneType' object has no attribute 'run_daily'"), w)
    | Some q =>
        let j := {| job_id := next_id q; callback := cb; time := tm; data := d; name := nm |} in
        (Return tt, set_job_queue (Some {| next_id := S (next_id q); jobs := jobs q ++ [j] |}) w)
    end.

(** [context.job_queue.get_jobs_by_name(name)] *)
Definition get_jobs_by_name (nm : string) : M (list Job) :=
  fun w =>
    match job_queue w with
    | None => (Raise (AttributeError "'NoneType' object has no attribute 'get_jobs_by_name'"), w)
    | Some q => (Return (filter (fun j => String.eqb (name j) nm) (jobs q)), w)
    end.

(** [job.schedule_removal()]: the scheduler drops the job with this
    identifier and complains when it has none. *)
Definition schedule_removal (j : Job) : M unit :=
  fun w =>
    match job_queue w with
    | None => (Raise (External "JobLookupError"), w)
    | Some q =>
        if existsb (fun j' => Nat.eqb (job_id j') (job_id j)) (jobs q)
        then (Return tt,
              set_job_queue
                (Some {| next_id := next_id q;
                         jobs := filter (fun j' => negb (Nat.eqb (job_id j') (job_id j))) (jobs q) |})
                w)
        else (Raise (External "JobLookupError"), w)
    end.

(** [for x in xs: body x] *)
Fixpoint for_each {A : Type} (xs : list A) (body : A -> M unit) : M unit :=
  match xs with
  | [] => ret tt
  | x :: rest => body x ;; for_each rest body
  end.

(** *** app.py, function by function *)

(** [add_subscriber(chat_id)] *)
Definition add_subscriber (chat_id : Z) : M unit :=
  try_except
    (supabase_insert chat_id)
    (fun e => logger_error ("Erro ao adicionar inscrito: " ++ str_exn e)).

(** [remove_subscriber(chat_id)] *)
Definition remove_subscriber (chat_id : Z) : M unit :=
  try_except
    (supabase_delete chat_id)
    (fun e => logger_error ("Erro ao remover inscrito: " ++ str_exn e)).

(** [get_subscribers()] *)
Definition get_subscribers : M (list Z) :=
  try_except
    supabase_select
    (fun e => logger_error ("Erro ao buscar inscritos: " ++ str_exn e) ;; ret []).

(** [traduzir(texto)] *)
Definition traduzir (texto : string) : M string :=
  try_except
    (google_translate texto)
    (fun e => logger_error ("Erro na tradução: " ++ str_exn e) ;; ret texto).

Definition keywords : value :=
  VList [VStr "galaxy"; VStr "nebula"; VStr "saturn"; VStr "jupiter"; VStr "apollo";
         VStr "earth"; VStr "star"; VStr "sun"; VStr "planet"; VStr "asteroid";
         VStr "space"].

(** The f-string [url] of [imagem_espacial_aleatoria]. *)
Definition search_url (query : value) : string :=
  "https://images-api.nasa.gov/search?q=" ++ str py query ++ "&media_type=image".

(** [imagem_espacial_aleatoria()] *)
Definition imagem_espacial_aleatoria : M value :=
  try_except
    (query <- random_choice keywords ;;
     res <- http_get (search_url query) ;;
     if negb (status_code res =? 200) then
       logger_error ("Erro na API da NASA (imagens): " ++ str_int (status_code res)) ;;
       ret VNone
     else
       data <- lift (json res) ;;
       collection <- lift (dict_get data "collection" (VDict [])) ;;
       items <- lift (dict_get collection "items" (VList [])) ;;
       if negb (truthy items) then ret VNone
       else
         imagem <- random_choice items ;;
         links <- lift (getitem imagem "links") ;;
         link <- lift (getindex links 0) ;;
         lift (getitem link "href"))
    (fun e => logger_error ("Erro ao buscar imagem: " ++ str_exn e) ;; ret VNone).

Definition erro_nasa : string := "Erro ao buscar dados da NASA.".
Definition nenhum_asteroide : string := "Nenhum asteroide próximo hoje 😴".
Definition erro_processar : string := "Erro ao processar dados do asteroide.".

(** The f-string [msg_original]. *)
Definition msg_original (nome : value) (distancia velocidade : Z) : string :=
  "🌍 Asteroide próximo da Terra! 🌠" ++ nl ++ nl ++
  "Nome: " ++ str py nome ++ nl ++
  "Distância aproximada: " ++ format_thousands distancia ++ " km" ++ nl ++
  "Velocidade: " ++ format_thousands velocidade ++ " km/h" ++ nl ++ nl.

(** The f-string [url] of [get_asteroid_message]. *)
Definition feed_url (hoje : string) : string :=
  "https://api.nasa.gov/neo/rest/v1/feed?start_date=" ++ hoje ++
  "&end_date=" ++ hoje ++ "&api_key=" ++ API_KEY env.

(** [get_asteroid_message()] *)
Definition get_asteroid_message : M string :=
  try_except
    (hoje <- today ;;
     res <- http_get (feed_url hoje) ;;
     if negb (status_code res =? 200) then
       logger_error ("Erro na API da NASA (asteroides): " ++ str_int (status_code res)) ;;
       ret erro_nasa
     else
       data <- lift (json res) ;;
       neo <- lift (getitem data "near_earth_objects") ;;
       asteroides <- lift (dict_get neo hoje (VList [])) ;;
       if negb (truthy asteroides) then ret nenhum_asteroide
       else
         asteroide <- random_choice asteroides ;;
         nome <- lift (getitem asteroide "name") ;;
         cad <- lift (getitem asteroide "close_approach_data") ;;
         cad0 <- lift (getindex cad 0) ;;
         rv <- lift (getitem cad0 "relative_velocity") ;;
         kph <- lift (getitem rv "kilometers_per_hour") ;;
         velocidade <- lift (to_float py kph) ;;
         cad' <- lift (getitem asteroide "close_approach_data") ;;
         cad0' <- lift (getindex cad' 0) ;;
         md <- lift (getitem cad0' "miss_distance") ;;
         km <- lift (getitem md "kilometers") ;;
         distancia <- lift (to_float py km) ;;
         d <- lift (int_of_float distancia) ;;
         v <- lift (int_of_float velocidade) ;;
         traduzir (msg_original nome d v))
    (fun e =>
       logger_error ("Erro ao buscar dados do asteroide: " ++ str_exn e) ;;
       ret erro_processar).

Definition nota : string :=
  nl ++ nl ++ "*Nota:* A imagem enviada NÃO tem relação direta com o asteroide, é só uma foto aleatória do espaço.".

(** [send_message(chat_id, text, imagem=None, context=None)] *)
Definition send_message (chat_id : Z) (text : string) (imagem : value)
    (context : option CallbackContext) : M unit :=
  match context with
  | None => logger_error "Contexto não fornecido para send_message"
  | Some _ =>
      try_except
        (if truthy imagem
         then bot_call (SendPhoto chat_id imagem (text ++ nota))
         else bot_call (SendMessage chat_id text))
        (fun e =>
           logger_error ("Erro ao enviar mensagem para chat_id " ++ str_int chat_id ++
                         ": " ++ str_exn e))
  end.

(** [update.message.reply_text(text)] *)
Definition reply_text (update : Update) (text : string) : M unit :=
  bot_call (ReplyText (effective_chat_id update) text).

Definition erro_job_queue : string :=
  "Erro: JobQueue não configurado. Contate o administrador.".
Definition bot_iniciado : string :=
  "Bot iniciado! Você receberá atualizações sobre asteroides diariamente às 10h (horário de Brasília).".
Definition envios_desativados : string :=
  "Envios diários desativados. Use /start para reativar.".
Definition nenhum_envio : string :=
  "Nenhum envio diário ativo para este chat.".

(** [time(hour=10, minute=00, tzinfo=timezone(timedelta(hours=-3)))] *)
Definition daily_time : Time :=
  {| hour := 10; minute := 0; utcoffset_hours := -3 |}.

(** [start(update, context)], the handler of [/start]. *)
Definition start (update : Update) (context : CallbackContext) : M unit :=
  let chat_id := effective_chat_id update in
  add_subscriber chat_id ;;
  q <- (fun w => (Return (job_queue w), w)) ;;
  match q with
  | None =>
      logger_error "JobQueue não está disponível. Instale python-telegram-bot[job-queue]" ;;
      reply_text update erro_job_queue
  | Some _ =>
      mensagem <- get_asteroid_message ;;
      imagem <- imagem_espacial_aleatoria ;;
      send_message chat_id mensagem imagem (Some context) ;;
      reply_text update bot_iniciado ;;
      run_daily SendPeriodicMessage daily_time chat_id (str_int chat_id)
  end.

(** [stop(update, context)], the handler of [/stop]. *)
Definition stop (update : Update) (context : CallbackContext) : M unit :=
  let chat_id := effective_chat_id update in
  subs <- get_subscribers ;;
  if existsb (Z.eqb chat_id) subs then
    remove_subscriber chat_id ;;
    current_jobs <- get_jobs_by_name (str_int chat_id) ;;
    for_each current_jobs schedule_removal ;;
    reply_text update envios_desativados
  else
    reply_text update nenhum_envio.

(** [send_periodic_message(context)], what a daily job runs. *)
Definition send_periodic_message (context : CallbackContext) : M unit :=
  match job context with
  | None => raise (AttributeError "'NoneType' object has no attribute 'data'")
  | Some j =>
      let chat_id := data j in
      mensagem <- get_asteroid_message ;;
      imagem <- imagem_espacial_aleatoria ;;
      send_message chat_id mensagem imagem (Some context)
  end.

End Script.

(** *** When a daily job fires

    [run_daily] fires the job at the minutes whose wall-clock reading in the
    job's time zone is the job's time.  Instants are minutes since the epoch,
    in UTC. *)
Definition fires_at (tm : Time) (utc_minute : Z) : bool :=
  (utc_minute + 60 * utcoffset_hours tm) mod 1440 =? 60 * hour tm + minute tm.

(** The jobs of the queue that carry a name: none when there is no queue. *)
Definition jobs_named (nm : string) (w : World) : list Job :=
  match job_queue w with
  | None => []
  | Some q => filter (fun j => String.eqb (name j) nm) (jobs q)
  end.

(** Identifiers of the queue are never reused. *)
Definition queue_ok (q : JobQueue) : Prop :=
  NoDup (map job_id (jobs q)) /\ Forall (fun j => (job_id j < next_id q)%nat) (jobs q).

Definition world_ok (w : World) : Prop :=
  match job_queue w with
  | None => True
  | Some q => queue_ok q
  end.

End App.

Import Py App.

(** ** Predicates on runs *)

(** A computation that leaves the subscriber table and the job queue as
    they are (it may log, call out and move the clock). *)
Definition keeps {A : Type} (m : M A) : Prop :=
  forall w, subscribers (snd (m w)) = subscribers w /\
            job_queue (snd (m w)) = job_queue w.

(** [m], run from [w], ends in an outcome and a world that satisfy [Q]. *)
Definition ensures {A : Type} (m : M A) (w : World)
    (Q : result A -> World -> Prop) : Prop :=
  Q (fst (m w)) (snd (m w)).

(** The world after an external call was made: the clock moved and the call is
    in the trace. *)
Definition called (ev : event) (w : World) : World :=
  set_trace (trace w ++ [ev]) (set_clock (S (clock w)) w).

(** The job [start] registers for a chat. *)
Definition daily_job (id : nat) (chat_id : Z) : Job :=
  {| job_id := id; callback := SendPeriodicMessage; time := daily_time;
     data := chat_id; name := str_int chat_id |}.

(** What is left of a list of jobs once the jobs [removed] were dropped by
    their identifiers. *)
Definition without (removed : list Job) (js : list Job) : list Job :=
  filter (fun j' => negb (existsb (fun j => Nat.eqb (job_id j') (job_id j)) removed)) js.

(** Whether an event is a delivery (photo or text) to a chat, as opposed to
    the reply of a command handler. *)
Definition is_delivery (chat_id : Z) (ev : event) : bool :=
  match ev with
  | SendPhoto c _ _ | SendMessage c _ => c =? chat_id
  | _ => false
  end.

(** The path of [imagem_espacial_aleatoria] that reaches its last line, run
    from a world whose clock reads [t]: the search went through with status
    200, its result set [items] is not empty, and [v] is the [href] of the
    first link of the item drawn from it. *)
Definition image_found (py : Builtins) (env : Env) (t : nat) (v : value) : Prop :=
  exists query res data collection items imagem links link,
    choice (random env t) keywords = Return query /\
    requests_get env (1 + t) (search_url py query) = Return res /\
    status_code res = 200 /\
    json res = Return data /\
    dict_get data "collection" (VDict []) = Return collection /\
    dict_get collection "items" (VList []) = Return items /\
    truthy items = true /\
    choice (random env (2 + t)) items = Return imagem /\
    getitem imagem "links" = Return links /\
    getindex links 0 = Return link /\
    getitem link "href" = Return v.

(** ** Sample inputs *)

Module Sample.

(** [float] of the two decimal texts of the sample feed; no other text is a
    number here.  [repr] is not exercised. *)
Definition py : Builtins :=
  {| float_of_str := fun s =>
       if String.eqb s "48520.25" then Return 48520.25%float
       else if String.eqb s "1234567.5" then Return 1234567.5%float
       else Raise (ValueError "could not convert string to float");
     repr := fun _ => "<object>" |}.

Definition hoje : string := "2024-01-02".

Definition asteroide : value :=
  VDict [("name", VStr "(2020 AB1)");
         ("close_approach_data",
          VList [VDict [("relative_velocity", VDict [("kilometers_per_hour", VStr "48520.25")]);
                        ("miss_distance", VDict [("kilometers", VStr "1234567.5")])]])].

Definition feed (asteroides : list value) : value :=
  VDict [("near_earth_objects", VDict [(hoje, VList asteroides)])].

Definition search (href : value) : value :=
  VDict [("collection",
          VDict [("items", VList [VDict [("links", VList [VDict [("href", href)]])]])])].

(** An outside where every service answers: the feed query gets [feed_body]
    and the image search gets [search_body]. *)
Definition answering (feed_body search_body : value) : Env :=
  {| API_KEY := "DEMO_KEY";
     now := fun _ => hoje;
     random := fun t => t;
     requests_get := fun _ url =>
       Return {| status_code := 200;
                 json := Return (if String.prefix "https://api.nasa.gov/" url
                                 then feed_body else search_body) |};
     translate := fun _ texto => Return ("[pt] " ++ texto);
     supabase_execute := fun _ => None;
     bot_send := fun _ => None |}.

Definition env : Env := answering (feed [asteroide]) (search (VStr "https://images.example/a.jpg")).

(** The same outside with a Telegram that refuses every call. *)
Definition env_bot_down : Env :=
  {| API_KEY := API_KEY env; now := now env; random := random env;
     requests_get := requests_get env; translate := translate env;
     supabase_execute := supabase_execute env;
     bot_send := fun _ => Some (External "Forbidden: bot was blocked by the user") |}.

Definition world (rows : list Z) (q : option JobQueue) : World :=
  {| clock := 0; subscribers := rows; job_queue := q; log := []; trace := [] |}.

Definition empty_queue : JobQueue := {| next_id := 0; jobs := [] |}.

Definition update (chat_id : Z) : Update := {| effective_chat_id := chat_id |}.

Definition context : CallbackContext := {| job := None |}.

(** A fresh bot without and with the job queue, and one where chat 12345
    subscribed before. *)
Definition no_queue : World := world [] None.
Definition fresh_queue : World := world [] (Some empty_queue).
Definition subscribed_no_queue : World := world [12345] None.
Definition subscribed : World :=
  world [12345] (Some {| next_id := 1; jobs := [daily_job 0 12345] |}).

(** A feed without asteroids and a search whose [href] is the number 5. *)
Definition env_quiet_sky : Env := answering (feed []) VNone.
Definition env_href_number : Env := answering (feed []) (search (VInt 5)).

End Sample.

(** ** The rest of the script *)

(** *** Loading the module (the environment variables)

    [os.getenv] gives [None] for a variable that is not set.  The module
    tests the four variables in two steps and leaves through [exit()] after
    one [logger.error]; otherwise it goes on to [create_client]. *)
Inductive Loaded : Type :=
| Exit (logged : string)
| Client (supabase_url supabase_key : string).

(** [not v] for the result of [os.getenv]. *)
Definition unset (v : option string) : bool :=
  match v with
  | None => true
  | Some s => String.eqb s ""
  end.

Definition text_of (v : option string) : string :=
  match v with
  | None => ""
  | Some s => s
  end.

Definition load (getenv : string -> option string) : Loaded :=
  let API_KEY := getenv "NASA_API_KEY" in
  let TELEGRAM_TOKEN := getenv "TELEGRAM_TOKEN" in
  let SUPABASE_URL := getenv "SUPABASE_URL" in
  let SUPABASE_KEY := getenv "SUPABASE_KEY" in
  if unset API_KEY || unset TELEGRAM_TOKEN
  then Exit "NASA_API_KEY ou TELEGRAM_TOKEN não encontrados no .env"
  else if unset SUPABASE_URL || unset SUPABASE_KEY
  then Exit "SUPABASE_URL ou SUPABASE_KEY não encontrados no .env"
  else Client (text_of SUPABASE_URL) (text_of SUPABASE_KEY).

(** *** The handlers [main] registers

    [main] binds [/start] to [start] and [/stop] to [stop]; the job queue
    calls [send_periodic_message] with the job that fires.  The application
    takes what comes in one at a time; an exception that leaves a handler
    ends that handler only. *)
Inductive Incoming : Type :=
| Start (update : Update)
| Stop (update : Update)
| Fires (j : Job).

Definition handle (py : Builtins) (env : Env) (i : Incoming) : M unit :=
  match i with
  | Start update => start py env update {| job := None |}
  | Stop update => stop env update {| job := None |}
  | Fires j => send_periodic_message py env {| job := Some j |}
  end.

Fixpoint run (py : Builtins) (env : Env) (incoming : list Incoming) (w : World) : World :=
  match incoming with
  | [] => w
  | i :: rest => run py env rest (snd (handle py env i w))
  end.

(** *** Predicates for the properties below *)

(** The calls of the content fetcher: HTTP queries and translations. *)
Definition is_fetch (ev : event) : bool :=
  match ev with
  | HttpGet _ | Translate _ => true
  | _ => false
  end.

(** A job as [start] makes them: 10:00 at UTC-3, bound to
    [send_periodic_message], named after the chat it carries. *)
Definition is_daily_job (j : Job) : Prop :=
  j = daily_job (job_id j) (data j).

(** The jobs of the queue, none when there is no queue. *)
Definition all_jobs (w : World) : list Job :=
  match job_queue w with
  | None => []
  | Some q => jobs q
  end.

(** [text.replace(",", "")] *)
Fixpoint strip_commas (s : string) : string :=
  match s with
  | EmptyString => EmptyString
  | String c rest =>
      if Ascii.eqb c ","%char then strip_commas rest else String c (strip_commas rest)
  end.

(** The path of [get_asteroid_message] that reaches [traduzir], run from a
    world whose clock reads [t]: the feed answered 200 with a non-empty list
    for today, and the asteroid drawn has a name, a velocity and a distance
    that convert. *)
Definition asteroid_found (py : Builtins) (env : Env) (t : nat)
    (nome : value) (distancia velocidade : Z) : Prop :=
  exists res data neo asteroides asteroide cad cad0 rv kph md km fv fd,
    requests_get env (1 + t) (feed_url env (now env t)) = Return res /\
    status_code res = 200 /\
    json res = Return data /\
    getitem data "near_earth_objects" = Return neo /\
    dict_get neo (now env t) (VList []) = Return asteroides /\
    truthy asteroides = true /\
    choice (random env (2 + t)) asteroides = Return asteroide /\
    getitem asteroide "name" = Return nome /\
    getitem asteroide "close_approach_data" = Return cad /\
    getindex cad 0 = Return cad0 /\
    getitem cad0 "relative_velocity" = Return rv /\
    getitem rv "kilometers_per_hour" = Return kph /\
    to_float py kph = Return fv /\
    getitem cad0 "miss_distance" = Return md /\
    getitem md "kilometers" = Return km /\
    to_float py km = Return fd /\
    int_of_float fd = Return distancia /\
    int_of_float fv = Return velocidade.

(** What a fetch adds to the world: calls of the content services only. *)
Definition fetched (w w' : World) : Prop :=
  subscribers w' = subscribers w /\ job_queue w' = job_queue w /\
  exists calls, trace w' = (trace w ++ calls)%list /\ forallb is_fetch calls = true.

Definition not_comma (c : ascii) : bool := negb (Ascii.eqb c ","%char).

(** More sample inputs: a store that refuses the first call only, a store
    that refuses every call, a feed that answers 500 and a network that is
    down. *)
Module Sample2.

Definition env_feed_500 : Env :=
  {| API_KEY := API_KEY Sample.env; now := now Sample.env; random := random Sample.env;
     requests_get := fun _ _ => Return {| status_code := 500; json := Raise (ValueError "Expecting value") |};
     translate := translate Sample.env;
     supabase_execute := supabase_execute Sample.env;
     bot_send := bot_send Sample.env |}.


Definition env_offline : Env :=
  {| API_KEY := API_KEY Sample.env; now := now Sample.env; random := random Sample.env;
     requests_get := fun _ _ => Raise (External "Max retries exceeded");
     translate := translate Sample.env;
     supabase_execute := supabase_execute Sample.env;
     bot_send := bot_send Sample.env |}.

Definition env_insert_fails : Env :=
  {| API_KEY := API_KEY Sample.env; now := now Sample.env; random := random Sample.env;
     requests_get := requests_get Sample.env; translate := translate Sample.env;
     supabase_execute := fun t =>
       match t with
       | O => Some (External "duplicate key value violates unique constraint")
       | S _ => None
       end;
     bot_send := bot_send Sample.env |}.

Definition env_store_down : Env :=
  {| API_KEY := API_KEY Sample.env; now := now Sample.env; random := random Sample.env;
     requests_get := requests_get Sample.env; translate := translate Sample.env;
     supabase_execute := fun _ => Some (External "connection refused");
     bot_send := bot_send Sample.env |}.

Definition getenv_all (nm : string) : option string :=
  if String.eqb nm "NASA_API_KEY" then Some "DEMO_KEY"
  else if String.eqb nm "TELEGRAM_TOKEN" then Some "123:abc"
  else if String.eqb nm "SUPABASE_URL" then Some "https://db.example"
  else if String.eqb nm "SUPABASE_KEY" then Some "secret"
  else None.

(** Chats 7 and 12345 subscribed, each with its job. *)
Definition two_chats : World :=
  Sample.world [7; 12345]
    (Some {| next_id := 2; jobs := [daily_job 0 7; daily_job 1 12345] |}).

End Sample2.

(** ** Rules for [keeps] *)

Lemma keeps_ret {A : Type} (a : A) : keeps (ret a).
Proof. intro w. split; reflexivity. Qed.

Lemma keeps_raise {A : Type} (e : exn) : keeps (@raise A e).
Proof. intro w. split; reflexivity. Qed.

Lemma keeps_lift {A : Type} (r : result A) : keeps (lift r).
Proof. intro w. split; reflexivity. Qed.

Lemma keeps_logger_error (msg : string) : keeps (logger_error msg).
Proof. intro w. split; reflexivity. Qed.

Lemma keeps_fresh : keeps fresh.
Proof. intro w. split; reflexivity. Qed.

Lemma keeps_emit (ev : event) : keeps (emit ev).
Proof. intro w. split; reflexivity. Qed.

Lemma keeps_bind {A B : Type} (m : M A) (k : A -> M B) :
  keeps m -> (forall a, keeps (k a)) -> keeps (bind m k).
Proof.
  intros Hm Hk w. unfold bind.
  destruct (Hm w) as [Hs Hq].
  destruct (m w) as [[a | e] w1]; simpl in Hs, Hq.
  - destruct (Hk a w1) as [Hs' Hq']. split; congruence.
  - simpl. split; assumption.
Qed.

Lemma keeps_try_except {A : Type} (m : M A) (h : exn -> M A) :
  keeps m -> (forall e, keeps (h e)) -> keeps (try_except m h).
Proof.
  intros Hm Hh w. unfold try_except.
  destruct (Hm w) as [Hs Hq].
  destruct (m w) as [[a | e] w1]; simpl in Hs, Hq.
  - simpl. split; assumption.
  - destruct (Hh e w1) as [Hs' Hq']. split; congruence.
Qed.

Lemma keeps_if {A : Type} (b : bool) (m1 m2 : M A) :
  keeps m1 -> keeps m2 -> keeps (if b then m1 else m2).
Proof. destruct b; auto. Qed.

Lemma keeps_option {A B : Type} (o : option B) (m1 : B -> M A) (m2 : M A) :
  (forall b, keeps (m1 b)) -> keeps m2 ->
  keeps (match o with Some b => m1 b | None => m2 end).
Proof. destruct o; auto. Qed.

Create HintDb frame.
#[local] Hint Resolve keeps_ret keeps_raise keeps_lift keeps_logger_error
  keeps_fresh keeps_emit keeps_if keeps_option : frame.

Ltac frame :=
  repeat first
    [ apply keeps_bind; [ | intro ]
    | apply keeps_try_except; [ | intro ]
    | apply keeps_if
    | apply keeps_option; [ intro | ]
    | solve [ auto with frame ] ].

Section Frames.

Variable py : Builtins.
Variable env : Env.

Lemma keeps_bot_call (ev : event) : keeps (bot_call env ev).
Proof. unfold bot_call. frame. Qed.

Lemma keeps_http_get (url : string) : keeps (http_get env url).
Proof. unfold http_get. frame. Qed.

Lemma keeps_random_choice (seq : value) : keeps (random_choice env seq).
Proof. unfold random_choice. frame. Qed.

Lemma keeps_traduzir (texto : string) : keeps (traduzir env texto).
Proof. unfold traduzir, google_translate. frame. Qed.

Lemma keeps_imagem_espacial_aleatoria : keeps (imagem_espacial_aleatoria py env).
Proof.
  unfold imagem_espacial_aleatoria.
  pose proof keeps_http_get. pose proof keeps_random_choice.
  frame.
Qed.

Lemma keeps_get_asteroid_message : keeps (get_asteroid_message py env).
Proof.
  unfold get_asteroid_message, today.
  pose proof keeps_http_get. pose proof keeps_random_choice.
  pose proof keeps_traduzir.
  frame.
Qed.

Lemma keeps_send_message chat_id text imagem context :
  keeps (send_message env chat_id text imagem context).
Proof.
  unfold send_message. pose proof keeps_bot_call.
  destruct context; frame.
Qed.

Lemma keeps_reply_text update text : keeps (reply_text env update text).
Proof. apply keeps_bot_call. Qed.

(** A daily fire neither touches the table nor deregisters a job, whatever
    fetching and sending do. *)
Lemma keeps_send_periodic_message context :
  keeps (send_periodic_message py env context).
Proof.
  unfold send_periodic_message.
  pose proof keeps_get_asteroid_message. pose proof keeps_imagem_espacial_aleatoria.
  pose proof keeps_send_message.
  destruct (job context); frame.
Qed.

End Frames.

(** ** Delivery Sender *)

Section Delivery.

Variable env : Env.

(** What a bot call does to the world, whatever Telegram answers. *)
Lemma bot_call_run (ev : event) (w : World) :
  bot_call env ev w =
    (match bot_send env (clock w) with Some e => Raise e | None => Return tt end,
     set_trace (trace w ++ [ev]) (set_clock (S (clock w)) w)).
Proof.
  unfold bot_call, bind, fresh, emit, raise, ret. simpl.
  destruct (bot_send env (clock w)); reflexivity.
Qed.

(** C5: [send_message] returns normally for every recipient, text, image
    and context, whatever the transport does; when the transport call fails
    the log grows by exactly one entry, the one that names the recipient
    (and by nothing when the call goes through).  Without a context nothing
    is sent and the one entry logged says so. *)
Theorem send_message_never_raises (chat_id : Z) (text : string) (imagem : value)
    (context : option CallbackContext) (w : World) :
  exists w',
    send_message env chat_id text imagem context w = (Return tt, w') /\
    log w' =
      match context with
      | None => (log w ++ ["Contexto não fornecido para send_message"])%list
      | Some _ =>
          match bot_send env (clock w) with
          | Some e =>
              (log w ++ [("Erro ao enviar mensagem para chat_id " ++ str_int chat_id ++
                          ": " ++ str_exn e)%string])%list
          | None => log w
          end
      end.
Proof.
  unfold send_message. destruct context as [ctx | ].
  - unfold try_except.
    assert (Hcall : forall ev,
      exists w',
        match bot_call env ev w with
        | (Return a, w1) => (Return a, w1)
        | (Raise e, w1) =>
            logger_error ("Erro ao enviar mensagem para chat_id " ++ str_int chat_id ++
                          ": " ++ str_exn e) w1
        end = (Return tt, w') /\
        log w' =
          match bot_send env (clock w) with
          | Some e =>
              (log w ++ [("Erro ao enviar mensagem para chat_id " ++ str_int chat_id ++
                          ": " ++ str_exn e)%string])%list
          | None => log w
          end).
    { intro ev. rewrite bot_call_run.
      destruct (bot_send env (clock w)) as [e | ]; eexists; split; reflexivity. }
    destruct (truthy imagem); apply Hcall.
  - eexists. split; reflexivity.
Qed.

(** C9: with a context, the one call [send_message] makes is [send_photo]
    with the caption [text] followed by the fixed note when the image is
    present, and [send_message] with the bare [text] when it is absent.
    Presence is Python's truth test on [imagem]: a URL (a non-empty string)
    is present, [None] is absent. *)
Theorem send_message_payload (chat_id : Z) (text : string) (imagem : value)
    (ctx : CallbackContext) (w : World) :
  trace (snd (send_message env chat_id text imagem (Some ctx) w)) =
    (trace w ++ [if truthy imagem
                 then SendPhoto chat_id imagem (text ++ nota)
                 else SendMessage chat_id text])%list
  /\ (forall (c : ascii) (url : string),
        trace (snd (send_message env chat_id text (VStr (String c url)) (Some ctx) w)) =
          (trace w ++ [SendPhoto chat_id (VStr (String c url)) (text ++ nota)])%list)
  /\ trace (snd (send_message env chat_id text VNone (Some ctx) w)) =
       (trace w ++ [SendMessage chat_id text])%list.
Proof.
  assert (Hgen : forall img,
    trace (snd (send_message env chat_id text img (Some ctx) w)) =
      (trace w ++ [if truthy img
                   then SendPhoto chat_id img (text ++ nota)
                   else SendMessage chat_id text])%list).
  { intro img. unfold send_message, try_except.
    destruct (truthy img); rewrite bot_call_run;
      destruct (bot_send env (clock w)); reflexivity. }
  split; [apply Hgen | split].
  - intros c url. apply (Hgen (VStr (String c url))).
  - apply (Hgen VNone).
Qed.

End Delivery.

(** ** Stepping through a run *)

Lemma ensures_ret {A : Type} (a : A) (w : World) (Q : result A -> World -> Prop) :
  Q (Return a) w -> ensures (ret a) w Q.
Proof. exact (fun H => H). Qed.

Lemma ensures_raise {A : Type} (e : exn) (w : World) (Q : result A -> World -> Prop) :
  Q (Raise e) w -> ensures (raise e) w Q.
Proof. exact (fun H => H). Qed.

Lemma ensures_lift {A : Type} (r : result A) (w : World) (Q : result A -> World -> Prop) :
  Q r w -> ensures (lift r) w Q.
Proof. exact (fun H => H). Qed.

Lemma ensures_logger_error (msg : string) (w : World) (Q : result unit -> World -> Prop) :
  Q (Return tt) (set_log (log w ++ [msg]) w) -> ensures (logger_error msg) w Q.
Proof. exact (fun H => H). Qed.

Lemma ensures_fresh (w : World) (Q : result nat -> World -> Prop) :
  Q (Return (clock w)) (set_clock (S (clock w)) w) -> ensures fresh w Q.
Proof. exact (fun H => H). Qed.

Lemma ensures_emit (ev : event) (w : World) (Q : result unit -> World -> Prop) :
  Q (Return tt) (set_trace (trace w ++ [ev]) w) -> ensures (emit ev) w Q.
Proof. exact (fun H => H). Qed.

Lemma ensures_bind {A B : Type} (m : M A) (k : A -> M B) (w : World)
    (Q : result B -> World -> Prop) :
  ensures m w (fun r w1 =>
    match r with
    | Return a => ensures (k a) w1 Q
    | Raise e => Q (Raise e) w1
    end) ->
  ensures (bind m k) w Q.
Proof.
  unfold ensures, bind. destruct (m w) as [[a | e] w1]; simpl; auto.
Qed.

Lemma ensures_try_except {A : Type} (m : M A) (h : exn -> M A) (w : World)
    (Q : result A -> World -> Prop) :
  ensures m w (fun r w1 =>
    match r with
    | Return a => Q (Return a) w1
    | Raise e => ensures (h e) w1 Q
    end) ->
  ensures (try_except m h) w Q.
Proof.
  unfold ensures, try_except. destruct (m w) as [[a | e] w1]; simpl; auto.
Qed.

(** From a postcondition back to the run itself. *)
Lemma ensures_run {A : Type} (m : M A) (w : World) (Q : result A -> World -> Prop) :
  ensures m w Q -> exists r w', m w = (r, w') /\ Q r w'.
Proof.
  unfold ensures. intro H. exists (fst (m w)), (snd (m w)).
  split; [apply surjective_pairing | exact H].
Qed.

Ltac tidy :=
  cbv beta iota;
  cbn [clock subscribers job_queue log trace
       set_clock set_subscribers set_job_queue set_log set_trace].

(** One statement of the script: the outcome of a library call or of a
    lookup is split into its two cases. *)
Ltac step :=
  lazymatch goal with
  | |- ensures (bind _ _) _ _ => apply ensures_bind
  | |- ensures (try_except _ _) _ _ => apply ensures_try_except
  | |- ensures (ret _) _ _ => apply ensures_ret
  | |- ensures (raise _) _ _ => apply ensures_raise
  | |- ensures (lift ?r) _ _ =>
      apply ensures_lift;
      first [ match goal with H : r = _ |- _ => rewrite H end | destruct r eqn:? ]
  | |- ensures (logger_error _) _ _ => apply ensures_logger_error
  | |- ensures fresh _ _ => apply ensures_fresh
  | |- ensures (emit _) _ _ => apply ensures_emit
  | |- ensures (if ?b then _ else _) _ _ =>
      first [ match goal with H : b = _ |- _ => rewrite H end | destruct b eqn:? ]
  | |- ensures (match ?o with Some _ => _ | None => _ end) _ _ => destruct o eqn:?
  end; tidy.

(** ** Content Fetcher *)

Section Content.

Variable py : Builtins.
Variable env : Env.





(** Two of the failure outcomes, spelled out: a status other than 200 and a
    body that is no JSON. *)
Lemma get_asteroid_message_bad_status (w : World) (res : Response) :
  requests_get env (S (clock w)) (feed_url env (now env (clock w))) = Return res ->
  status_code res <> 200 ->
  fst (get_asteroid_message py env w) = Return erro_nasa.
Proof.
  intros Hget Hstatus.
  assert (Hstatus' : negb (status_code res =? 200) = true)
    by (apply negb_true_iff, Z.eqb_neq; exact Hstatus).
  change (ensures (get_asteroid_message py env) w (fun r _ => r = Return erro_nasa)).
  unfold get_asteroid_message, today, http_get.
  repeat step. reflexivity.
Qed.

Lemma get_asteroid_message_bad_body (w : World) (res : Response) (e : exn) :
  requests_get env (S (clock w)) (feed_url env (now env (clock w))) = Return res ->
  status_code res = 200 ->
  json res = Raise e ->
  fst (get_asteroid_message py env w) = Return erro_processar.
Proof.
  intros Hget Hstatus Hjson.
  assert (Hstatus' : negb (status_code res =? 200) = false)
    by (rewrite Hstatus; reflexivity).
  change (ensures (get_asteroid_message py env) w (fun r _ => r = Return erro_processar)).
  unfold get_asteroid_message, today, http_get.
  repeat step. reflexivity.
Qed.

(** C6: when the feed query succeeds (status 200, a JSON body with
    [near_earth_objects]) and has no asteroid for today (the entry of today
    is missing or empty), [get_asteroid_message] returns the fixed sentence
    [nenhum_asteroide]; the run consists of reading the date and of the one
    HTTP query: the translator is not called and nothing is logged. *)
Theorem no_asteroids_fallback (w : World) (res : Response) (data neo asteroides : value) :
  requests_get env (S (clock w)) (feed_url env (now env (clock w))) = Return res ->
  status_code res = 200 ->
  json res = Return data ->
  getitem data "near_earth_objects" = Return neo ->
  dict_get neo (now env (clock w)) (VList []) = Return asteroides ->
  truthy asteroides = false ->
  get_asteroid_message py env w =
    (Return nenhum_asteroide,
     set_trace (trace w ++ [HttpGet (feed_url env (now env (clock w)))])
       (set_clock (2 + clock w) w)).
Proof.
  intros Hget Hstatus Hjson Hneo Htoday Hempty.
  assert (Hstatus' : negb (status_code res =? 200) = false)
    by (rewrite Hstatus; reflexivity).
  assert (Hempty' : negb (truthy asteroides) = true)
    by (rewrite Hempty; reflexivity).
  assert (H : ensures (get_asteroid_message py env) w (fun r w' =>
    (r, w') =
      (Return nenhum_asteroide,
       set_trace (trace w ++ [HttpGet (feed_url env (now env (clock w)))])
         (set_clock (2 + clock w) w)))).
  { unfold get_asteroid_message, today, http_get.
    repeat step. reflexivity. }
  unfold ensures in H. rewrite <- H. apply surjective_pairing.
Qed.

Lemma imagem_espacial_aleatoria_ensures (w : World) :
  ensures (imagem_espacial_aleatoria py env) w (fun r _ =>
    exists v, r = Return v /\ (v = VNone \/ image_found py env (clock w) v)).
Proof.
  unfold imagem_espacial_aleatoria, http_get, random_choice.
  repeat step;
    eexists; (split; [reflexivity | ]);
    first
      [ left; reflexivity
      | right; unfold image_found;
        repeat match goal with
               | H : negb _ = false |- _ => apply negb_false_iff in H
               end;
        do 8 eexists; repeat split; try eassumption;
        apply Z.eqb_eq; assumption ].
Qed.

(** C4, as the code has it: [imagem_espacial_aleatoria] returns normally in
    every world and for every answer of the outside.  What it returns is
    [None], or else [image_found] holds: the query went through with status
    200, the result set is not empty, and the value is the [href] of the
    first link of the item drawn, handed on as the payload has it.  So a
    query that fails (an exception, a status other than 200, a body that is
    no JSON) and an empty result set both give [None]. *)
Theorem imagem_espacial_aleatoria_result (w : World) :
  exists v w',
    imagem_espacial_aleatoria py env w = (Return v, w') /\
    (v = VNone \/ image_found py env (clock w) v).
Proof.
  destruct (ensures_run _ _ _ (imagem_espacial_aleatoria_ensures w))
    as (r & w' & Hrun & v & -> & Hv).
  exists v, w'. split; assumption.
Qed.

(** The two ways to [None] that the specification names. *)
Lemma imagem_none_when_query_fails (w : World) :
  (forall query res,
     requests_get env (1 + clock w) (search_url py query) = Return res ->
     status_code res <> 200 \/ exists e, json res = Raise e) ->
  fst (imagem_espacial_aleatoria py env w) = Return VNone.
Proof.
  intro Hfail.
  destruct (ensures_run _ _ _ (imagem_espacial_aleatoria_ensures w))
    as (r & w' & Hrun & v & -> & Hv).
  rewrite Hrun. cbn [fst].
  destruct Hv as [-> | Hfound]; [reflexivity | exfalso].
  destruct Hfound as (query & res & data & c & items & im & links & link &
                      _ & Hget & Hstatus & Hjson & _).
  destruct (Hfail query res Hget) as [Hbad | [e He]]; congruence.
Qed.

Lemma imagem_none_when_no_items (w : World) :
  (forall query res data collection items,
     requests_get env (1 + clock w) (search_url py query) = Return res ->
     json res = Return data ->
     dict_get data "collection" (VDict []) = Return collection ->
     dict_get collection "items" (VList []) = Return items ->
     truthy items = false) ->
  fst (imagem_espacial_aleatoria py env w) = Return VNone.
Proof.
  intro Hempty.
  destruct (ensures_run _ _ _ (imagem_espacial_aleatoria_ensures w))
    as (r & w' & Hrun & v & -> & Hv).
  rewrite Hrun. cbn [fst].
  destruct Hv as [-> | Hfound]; [reflexivity | exfalso].
  destruct Hfound as (query & res & data & c & items & im & links & link &
                      _ & Hget & _ & Hjson & Hc & Hitems & Htruthy & _).
  rewrite (Hempty query res data c items Hget Hjson Hc Hitems) in Htruthy.
  discriminate.
Qed.

End Content.

(** ** Subscriber Store *)

Section Store.

Variable env : Env.

Lemma add_subscriber_run (chat_id : Z) (w : World) :
  add_subscriber env chat_id w =
    (Return tt,
     match supabase_execute env (clock w) with
     | None => set_subscribers (subscribers w ++ [chat_id]) (called (DbInsert chat_id) w)
     | Some e =>
         set_log (log w ++ [("Erro ao adicionar inscrito: " ++ str_exn e)%string])
           (called (DbInsert chat_id) w)
     end).
Proof.
  unfold add_subscriber, try_except, supabase_insert, bind, fresh, emit, raise. simpl.
  destruct (supabase_execute env (clock w)); reflexivity.
Qed.

Lemma remove_subscriber_run (chat_id : Z) (w : World) :
  remove_subscriber env chat_id w =
    (Return tt,
     match supabase_execute env (clock w) with
     | None =>
         set_subscribers (filter (fun row => negb (row =? chat_id)) (subscribers w))
           (called (DbDelete chat_id) w)
     | Some e =>
         set_log (log w ++ [("Erro ao remover inscrito: " ++ str_exn e)%string])
           (called (DbDelete chat_id) w)
     end).
Proof.
  unfold remove_subscriber, try_except, supabase_delete, bind, fresh, emit, raise. simpl.
  destruct (supabase_execute env (clock w)); reflexivity.
Qed.

Lemma get_subscribers_run (w : World) :
  get_subscribers env w =
    match supabase_execute env (clock w) with
    | None => (Return (subscribers w), called DbSelect w)
    | Some e =>
        (Return [],
         set_log (log w ++ [("Erro ao buscar inscritos: " ++ str_exn e)%string])
           (called DbSelect w))
    end.
Proof.
  unfold get_subscribers, try_except, supabase_select, bind, fresh, emit, raise, ret. simpl.
  destruct (supabase_execute env (clock w)); reflexivity.
Qed.

(** [chat_id in subs] *)
Lemma existsb_eqb_In (chat_id : Z) (subs : list Z) :
  existsb (Z.eqb chat_id) subs = true <-> In chat_id subs.
Proof.
  rewrite existsb_exists. split.
  - intros (x & Hin & Heq). apply Z.eqb_eq in Heq. subst. exact Hin.
  - intro Hin. exists chat_id. split; [exact Hin | apply Z.eqb_refl].
Qed.

(** [delete().eq("chat_id", chat_id)] leaves no row of the chat. *)
Lemma deleted_not_in (chat_id : Z) (rows : list Z) :
  ~ In chat_id (filter (fun row => negb (row =? chat_id)) rows).
Proof.
  intro Hin. apply filter_In in Hin. destruct Hin as [_ Hne].
  rewrite Z.eqb_refl in Hne. discriminate.
Qed.

End Store.

(** ** Command Handlers *)

Section Handlers.

Variable py : Builtins.
Variable env : Env.

(** A computation that keeps table and queue satisfies every postcondition
    that only looks at them. *)
Lemma ensures_keeps {A : Type} (m : M A) (w : World) (Q : result A -> World -> Prop) :
  keeps m ->
  (forall r w', subscribers w' = subscribers w -> job_queue w' = job_queue w -> Q r w') ->
  ensures m w Q.
Proof.
  intros Hk HQ. unfold ensures. destruct (Hk w) as [Hs Hq]. apply HQ; assumption.
Qed.

Lemma reply_text_run (update : Update) (text : string) (w : World) :
  reply_text env update text w =
    (match bot_send env (clock w) with Some e => Raise e | None => Return tt end,
     called (ReplyText (effective_chat_id update) text) w).
Proof. apply bot_call_run. Qed.

(** [start] with a job queue: the insert is sent first; the handler returns
    normally exactly when it went as far as [run_daily], which appends one
    job; otherwise the queue is as it was. *)
Lemma start_with_job_queue (update : Update) (context : CallbackContext)
    (w : World) (q : JobQueue) :
  job_queue w = Some q ->
  ensures (start py env update context) w (fun r w' =>
    subscribers w' =
      match supabase_execute env (clock w) with
      | None => (subscribers w ++ [effective_chat_id update])%list
      | Some _ => subscribers w
      end /\
    job_queue w' =
      match r with
      | Return _ =>
          Some {| next_id := S (next_id q);
                  jobs := jobs q ++ [daily_job (next_id q) (effective_chat_id update)] |}
      | Raise _ => Some q
      end).
Proof.
  intro Hq. unfold start.
  apply ensures_bind. unfold ensures at 1. rewrite add_subscriber_run.
  cbn [fst snd].
  set (w1 := match supabase_execute env (clock w) with
             | None => _
             | Some e => _
             end).
  assert (Hs1 : subscribers w1 =
                match supabase_execute env (clock w) with
                | None => (subscribers w ++ [effective_chat_id update])%list
                | Some _ => subscribers w
                end)
    by (subst w1; destruct (supabase_execute env (clock w)); reflexivity).
  assert (Hq1 : job_queue w1 = Some q)
    by (subst w1; destruct (supabase_execute env (clock w)); exact Hq).
  clearbody w1. rewrite <- Hs1.
  apply ensures_bind. unfold ensures at 1. cbn [fst snd]. rewrite Hq1.
  apply ensures_bind. apply ensures_keeps; [apply keeps_get_asteroid_message | ].
  intros [mensagem | e] w2 Hs2 Hq2; [ | split; congruence].
  apply ensures_bind. apply ensures_keeps; [apply keeps_imagem_espacial_aleatoria | ].
  intros [imagem | e] w3 Hs3 Hq3; [ | split; congruence].
  apply ensures_bind. apply ensures_keeps; [apply keeps_send_message | ].
  intros [[] | e] w4 Hs4 Hq4; [ | split; congruence].
  apply ensures_bind. apply ensures_keeps; [apply keeps_reply_text | ].
  intros [[] | e] w5 Hs5 Hq5; [ | split; congruence].
  unfold ensures, run_daily.
  assert (Hq' : job_queue w5 = Some q) by congruence.
  rewrite Hq'. cbn [fst snd subscribers job_queue set_job_queue].
  split; [congruence | reflexivity].
Qed.

(** C8: a [/start] that finds the job queue and returns normally has
    registered exactly one more job: the queue is the old one followed by
    the job named [str(chat_id)], bound to the chat and to
    [send_periodic_message], with time 10:00 at UTC-3.  The job is among
    those [get_jobs_by_name(str(chat_id))] finds, and it fires at minute [m]
    of a day of the UTC-3 calendar exactly when [m] is 10:00. *)
Theorem start_registers_daily_trigger (update : Update) (context : CallbackContext)
    (w w' : World) (q : JobQueue) :
  job_queue w = Some q ->
  start py env update context w = (Return tt, w') ->
  let chat_id := effective_chat_id update in
  let j := daily_job (next_id q) chat_id in
  job_queue w' = Some {| next_id := S (next_id q); jobs := jobs q ++ [j] |} /\
  name j = str_int chat_id /\
  data j = chat_id /\
  callback j = SendPeriodicMessage /\
  time j = {| hour := 10; minute := 0; utcoffset_hours := -3 |} /\
  jobs_named (str_int chat_id) w' = (jobs_named (str_int chat_id) w ++ [j])%list /\
  (forall day m, 0 <= m < 1440 ->
     (fires_at (time j) (1440 * day + m + 180) = true <-> m = 10 * 60)).
Proof.
  intros Hq Hrun chat_id j.
  pose proof (start_with_job_queue update context w q Hq) as H.
  unfold ensures in H. rewrite Hrun in H. cbn [fst snd] in H.
  destruct H as [_ Hq'].
  repeat split; try reflexivity.
  - exact Hq'.
  - unfold jobs_named. rewrite Hq, Hq'. cbn [jobs].
    rewrite filter_app. cbn [filter name j daily_job].
    rewrite String.eqb_refl. reflexivity.
  - unfold fires_at. cbn [time j daily_job daily_time utcoffset_hours hour minute].
    intro Hf. apply Z.eqb_eq in Hf.
    replace (1440 * day + m + 180 + 60 * -3) with (m + day * 1440) in Hf by lia.
    rewrite Z_mod_plus_full, Z.mod_small in Hf; lia.
  - intros ->. unfold fires_at.
    cbn [time j daily_job daily_time utcoffset_hours hour minute].
    apply Z.eqb_eq.
    replace (1440 * day + 10 * 60 + 180 + 60 * -3) with (600 + day * 1440) by lia.
    rewrite Z_mod_plus_full. reflexivity.
Qed.

(** C1, as the code has it: when there is no job queue, [/start] sends the
    insert (the row is added unless the store call fails), logs the missing
    job queue, replies with [erro_job_queue] and returns: it registers no
    job, and it makes no HTTP query and no delivery, because the test of the
    job queue comes before the fetch.  The run is the insert and the
    reply. *)
Theorem start_without_job_queue (update : Update) (context : CallbackContext) (w : World) :
  job_queue w = None ->
  let chat_id := effective_chat_id update in
  exists w',
    start py env update context w =
      (match bot_send env (S (clock w)) with Some e => Raise e | None => Return tt end, w') /\
    subscribers w' =
      match supabase_execute env (clock w) with
      | None => (subscribers w ++ [chat_id])%list
      | Some _ => subscribers w
      end /\
    trace w' = (trace w ++ [DbInsert chat_id; ReplyText chat_id erro_job_queue])%list /\
    existsb (is_delivery chat_id) (trace w') = existsb (is_delivery chat_id) (trace w) /\
    log w' =
      (match supabase_execute env (clock w) with
       | None => log w
       | Some e => log w ++ [("Erro ao adicionar inscrito: " ++ str_exn e)%string]
       end ++
       ["JobQueue não está disponível. Instale python-telegram-bot[job-queue]"%string])%list /\
    job_queue w' = None /\
    jobs_named (str_int chat_id) w' = [].
Proof.
  intros Hq chat_id. unfold start, bind.
  rewrite add_subscriber_run. fold chat_id.
  set (w1 := match supabase_execute env (clock w) with
             | None => _
             | Some e => _
             end).
  assert (H1 : job_queue w1 = None /\ clock w1 = S (clock w) /\
               trace w1 = (trace w ++ [DbInsert chat_id])%list /\
               subscribers w1 =
                 match supabase_execute env (clock w) with
                 | None => (subscribers w ++ [chat_id])%list
                 | Some _ => subscribers w
                 end /\
               log w1 =
                 match supabase_execute env (clock w) with
                 | None => log w
                 | Some e => (log w ++ [("Erro ao adicionar inscrito: " ++ str_exn e)%string])%list
                 end)
    by (subst w1; destruct (supabase_execute env (clock w)); repeat split; assumption).
  clearbody w1. destruct H1 as (Hq1 & Hc1 & Ht1 & Hs1 & Hl1).
  rewrite Hq1. unfold logger_error. rewrite reply_text_run.
  tidy. rewrite Hc1. fold chat_id.
  eexists. split; [reflexivity | ].
  unfold called. tidy. rewrite Ht1, <- app_assoc.
  repeat split; try assumption.
  - rewrite existsb_app. cbn. apply orb_false_r.
  - rewrite Hl1. reflexivity.
  - unfold jobs_named. tidy. rewrite Hq1. reflexivity.
Qed.

(** The world [get_subscribers] leaves: table and queue as they were, one
    more call in the trace. *)
Lemma get_subscribers_world (w : World) (subs : list Z) (w1 : World) :
  get_subscribers env w = (Return subs, w1) ->
  subscribers w1 = subscribers w /\ job_queue w1 = job_queue w /\
  clock w1 = S (clock w) /\ trace w1 = (trace w ++ [DbSelect])%list /\
  (subs = subscribers w /\ supabase_execute env (clock w) = None \/ subs = []).
Proof.
  rewrite get_subscribers_run.
  destruct (supabase_execute env (clock w)); intro H; inversion H; subst;
    repeat split; auto.
Qed.

(** C7: when the chat is not in the list [get_subscribers] returns, [/stop]
    replies [nenhum_envio] and that is all it does beyond the select: the
    table and the job queue are the ones it found, and the handler returns
    what the reply returns. *)
Theorem stop_not_subscribed (update : Update) (context : CallbackContext)
    (w : World) (subs : list Z) (w1 : World) :
  get_subscribers env w = (Return subs, w1) ->
  ~ In (effective_chat_id update) subs ->
  exists w',
    stop env update context w =
      (match bot_send env (S (clock w)) with Some e => Raise e | None => Return tt end, w') /\
    subscribers w' = subscribers w /\
    job_queue w' = job_queue w /\
    trace w' = (trace w ++ [DbSelect; ReplyText (effective_chat_id update) nenhum_envio])%list.
Proof.
  intros Hget Hnotin.
  destruct (get_subscribers_world w subs w1 Hget) as (Hs & Hq & Hc & Ht & _).
  unfold stop, bind. rewrite Hget.
  destruct (existsb (Z.eqb (effective_chat_id update)) subs) eqn:Hmem.
  - apply existsb_eqb_In in Hmem. contradiction.
  - rewrite reply_text_run, Hc. eexists. split; [reflexivity | ].
    unfold called. tidy. rewrite Ht, <- app_assoc. repeat split; assumption.
Qed.

(** C10: when the chat is in the list and there is no job queue, [/stop]
    sends the delete and then raises the [AttributeError] of
    [context.job_queue.get_jobs_by_name]: the run is the select and the
    delete, with no reply; the row of the chat is gone from the table (unless
    the store call failed, which [remove_subscriber] swallows). *)
Theorem stop_without_job_queue (update : Update) (context : CallbackContext)
    (w : World) (subs : list Z) (w1 : World) :
  get_subscribers env w = (Return subs, w1) ->
  In (effective_chat_id update) subs ->
  job_queue w = None ->
  let chat_id := effective_chat_id update in
  exists w',
    stop env update context w =
      (Raise (AttributeError "'NoneType' object has no attribute 'get_jobs_by_name'"), w') /\
    trace w' = (trace w ++ [DbSelect; DbDelete chat_id])%list /\
    subscribers w' =
      match supabase_execute env (S (clock w)) with
      | None => filter (fun row => negb (row =? chat_id)) (subscribers w)
      | Some _ => subscribers w
      end /\
    ~ In chat_id (filter (fun row => negb (row =? chat_id)) (subscribers w)) /\
    job_queue w' = None.
Proof.
  intros Hget Hin Hq chat_id.
  destruct (get_subscribers_world w subs w1 Hget) as (Hs & Hq1 & Hc & Ht & _).
  unfold stop, bind. rewrite Hget. fold chat_id.
  apply existsb_eqb_In in Hin. fold chat_id in Hin. rewrite Hin.
  rewrite remove_subscriber_run, Hc.
  set (w2 := match supabase_execute env (S (clock w)) with
             | None => _
             | Some e => _
             end).
  assert (H2 : job_queue w2 = None /\
               trace w2 = (trace w ++ [DbSelect; DbDelete chat_id])%list /\
               subscribers w2 =
                 match supabase_execute env (S (clock w)) with
                 | None => filter (fun row => negb (row =? chat_id)) (subscribers w)
                 | Some _ => subscribers w
                 end).
  { subst w2. destruct (supabase_execute env (S (clock w)));
      unfold called; tidy; rewrite Ht, <- app_assoc, Hs, Hq1, Hq; repeat split. }
  clearbody w2. destruct H2 as (Hq2 & Ht2 & Hs2).
  unfold get_jobs_by_name. rewrite Hq2.
  exists w2. repeat split; try assumption.
  apply deleted_not_in.
Qed.

(** *** Cancelling the jobs of a chat *)

Lemma without_nil (js : list Job) : without [] js = js.
Proof.
  unfold without. induction js as [ | j js IH]; [reflexivity | ].
  cbn. f_equal. exact IH.
Qed.

Lemma without_cons (j : Job) (removed js : list Job) :
  without removed (filter (fun j' => negb (Nat.eqb (job_id j') (job_id j))) js) =
  without (j :: removed) js.
Proof.
  unfold without. induction js as [ | x js IH]; [reflexivity | ].
  cbn. destruct (Nat.eqb (job_id x) (job_id j)); cbn.
  - exact IH.
  - destruct (existsb (fun j0 => Nat.eqb (job_id x) (job_id j0)) removed); cbn;
      [exact IH | f_equal; exact IH].
Qed.

Lemma existsb_job_id (j : Job) (js : list Job) :
  existsb (fun j' => Nat.eqb (job_id j') (job_id j)) js = true <->
  In (job_id j) (map job_id js).
Proof.
  rewrite existsb_exists, in_map_iff. split.
  - intros (x & Hin & Heq). apply Nat.eqb_eq in Heq. eauto.
  - intros (x & Heq & Hin). exists x. split; [exact Hin | ].
    apply Nat.eqb_eq. exact Heq.
Qed.

(** The loop [for job in current_jobs: job.schedule_removal()] goes through
    when the jobs have distinct identifiers that the queue knows, and leaves
    the queue without them. *)
Lemma for_each_schedule_removal (removed : list Job) :
  forall (w : World) (q : JobQueue),
    job_queue w = Some q ->
    NoDup (map job_id removed) ->
    incl (map job_id removed) (map job_id (jobs q)) ->
    exists w',
      for_each removed schedule_removal w = (Return tt, w') /\
      subscribers w' = subscribers w /\
      job_queue w' = Some {| next_id := next_id q; jobs := without removed (jobs q) |}.
Proof.
  induction removed as [ | j removed IH]; intros w q Hq Hnodup Hincl.
  - exists w. rewrite without_nil. destruct q. auto.
  - cbn [for_each]. unfold bind, schedule_removal at 1. rewrite Hq.
    assert (Hj : existsb (fun j' => Nat.eqb (job_id j') (job_id j)) (jobs q) = true).
    { apply existsb_job_id. apply Hincl. left. reflexivity. }
    rewrite Hj.
    inversion Hnodup as [ | i ids Hfresh Hnodup' Heq]; subst.
    set (q1 := {| next_id := next_id q;
                  jobs := filter (fun j' => negb (Nat.eqb (job_id j') (job_id j))) (jobs q) |}).
    destruct (IH (set_job_queue (Some q1) w) q1 eq_refl Hnodup') as (w' & Hrun & Hs & Hq').
    + intros i Hi.
      assert (Hin : In i (map job_id (jobs q))) by (apply Hincl; right; exact Hi).
      apply in_map_iff in Hin. destruct Hin as (x & Hx & Hinx).
      apply in_map_iff. exists x. split; [exact Hx | ].
      subst q1. cbn [jobs]. apply filter_In. split; [exact Hinx | ].
      apply negb_true_iff, Nat.eqb_neq. intro Heq. apply Hfresh.
      rewrite <- Heq, Hx. exact Hi.
    + exists w'. split; [exact Hrun | ]. split; [exact Hs | ].
      rewrite Hq'. subst q1. cbn [next_id jobs]. rewrite without_cons. reflexivity.
Qed.

(** No job of a name is left once the jobs of that name were dropped. *)
Lemma without_named (nm : string) (js : list Job) :
  filter (fun j => String.eqb (name j) nm)
    (without (filter (fun j => String.eqb (name j) nm) js) js) = [].
Proof.
  destruct (filter _ (without _ js)) as [ | x rest] eqn:Hrest; [reflexivity | exfalso].
  assert (Hx : In x (x :: rest)) by (left; reflexivity).
  rewrite <- Hrest in Hx. apply filter_In in Hx. destruct Hx as [Hx Hname].
  unfold without in Hx. apply filter_In in Hx. destruct Hx as [Hin Hkept].
  apply negb_true_iff in Hkept.
  assert (Hfound : existsb (fun j => Nat.eqb (job_id x) (job_id j))
                     (filter (fun j => String.eqb (name j) nm) js) = true).
  { apply existsb_exists. exists x. split; [ | apply Nat.eqb_refl].
    apply filter_In. split; assumption. }
  congruence.
Qed.

(** Dropping jobs keeps the identifiers of the others distinct. *)
Lemma filter_ids_distinct (keep : Job -> bool) (js : list Job) :
  NoDup (map job_id js) -> NoDup (map job_id (filter keep js)).
Proof.
  induction js as [ | j js IH]; cbn; intro Hd; [exact Hd | ].
  apply NoDup_cons_iff in Hd. destruct Hd as [Hj Hd].
  destruct (keep j); cbn; auto.
  apply NoDup_cons; auto.
  intro Hin. apply Hj.
  apply in_map_iff in Hin. destruct Hin as (x & Hx & Hin).
  apply filter_In in Hin. apply in_map_iff. exists x. tauto.
Qed.

(** What [/start] does to the table, with or without a job queue. *)
Lemma start_subscribers (update : Update) (context : CallbackContext) (w : World) :
  subscribers (snd (start py env update context w)) =
    match supabase_execute env (clock w) with
    | None => (subscribers w ++ [effective_chat_id update])%list
    | Some _ => subscribers w
    end.
Proof.
  destruct (job_queue w) as [q | ] eqn:Hq.
  - pose proof (start_with_job_queue update context w q Hq) as H.
    unfold ensures in H. apply H.
  - unfold start, bind. rewrite add_subscriber_run.
    set (w1 := match supabase_execute env (clock w) with
               | None => _
               | Some e => _
               end).
    assert (H1 : job_queue w1 = None /\
                 subscribers w1 =
                   match supabase_execute env (clock w) with
                   | None => (subscribers w ++ [effective_chat_id update])%list
                   | Some _ => subscribers w
                   end)
      by (subst w1; destruct (supabase_execute env (clock w)); split; auto).
    clearbody w1. destruct H1 as [Hq1 Hs1].
    rewrite Hq1. unfold logger_error. rewrite reply_text_run. exact Hs1.
Qed.

(** *** The identifiers of the queue stay distinct *)

(** [run_daily] keeps the identifiers of the queue distinct. *)
Lemma queue_ok_run_daily (q : JobQueue) (j : Job) :
  queue_ok q -> job_id j = next_id q ->
  queue_ok {| next_id := S (next_id q); jobs := jobs q ++ [j] |}.
Proof.
  intros [Hnodup Hbound] Hid. unfold queue_ok. cbn [jobs next_id]. split.
  - rewrite map_app. cbn [map].
    apply NoDup_app; [exact Hnodup | repeat constructor; intros [] | ].
    intros i Hi Hlast. destruct Hlast as [Hlast | []].
    apply in_map_iff in Hi. destruct Hi as (x & Hx & Hinx).
    rewrite Forall_forall in Hbound. specialize (Hbound x Hinx). lia.
  - apply Forall_app. split.
    + eapply Forall_impl; [ | exact Hbound]. cbv beta. intros. lia.
    + constructor; [lia | constructor].
Qed.

Lemma queue_ok_without (removed : list Job) (q : JobQueue) :
  queue_ok q -> queue_ok {| next_id := next_id q; jobs := without removed (jobs q) |}.
Proof.
  intros [Hnodup Hbound]. unfold queue_ok, without. cbn [jobs next_id]. split.
  - apply filter_ids_distinct. exact Hnodup.
  - rewrite Forall_forall in *. intros j Hj. apply filter_In in Hj. apply Hbound, Hj.
Qed.

Lemma start_world_ok (update : Update) (context : CallbackContext) (w : World) :
  world_ok w -> world_ok (snd (start py env update context w)).
Proof.
  intro Hok. unfold world_ok in *.
  destruct (job_queue w) as [q | ] eqn:Hq.
  - pose proof (start_with_job_queue update context w q Hq) as H.
    unfold ensures in H. destruct H as [_ Hq1]. rewrite Hq1.
    destruct (fst (start py env update context w)).
    + apply queue_ok_run_daily; [exact Hok | reflexivity].
    + exact Hok.
  - unfold start, bind. rewrite add_subscriber_run.
    set (w1 := match supabase_execute env (clock w) with
               | None => _
               | Some e => _
               end).
    assert (Hq1 : job_queue w1 = None)
      by (subst w1; destruct (supabase_execute env (clock w)); exact Hq).
    clearbody w1. rewrite Hq1. unfold logger_error. rewrite reply_text_run.
    destruct (bot_send env _); cbn [snd]; unfold called; tidy; rewrite Hq1; exact I.
Qed.

Lemma stop_world_ok (update : Update) (context : CallbackContext) (w : World) :
  world_ok w -> world_ok (snd (stop env update context w)).
Proof.
  intro Hok. unfold stop, bind.
  assert (Hget : exists subs w1,
            get_subscribers env w = (Return subs, w1) /\ job_queue w1 = job_queue w).
  { rewrite get_subscribers_run. destruct (supabase_execute env (clock w));
      eexists; eexists; split; reflexivity. }
  destruct Hget as (subs & w1 & -> & Hq1).
  destruct (existsb (Z.eqb (effective_chat_id update)) subs).
  - rewrite remove_subscriber_run.
    set (w2 := match supabase_execute env (clock w1) with
               | None => _
               | Some e => _
               end).
    assert (Hq2 : job_queue w2 = job_queue w)
      by (subst w2; destruct (supabase_execute env (clock w1)); exact Hq1).
    clearbody w2.
    unfold get_jobs_by_name, world_ok in *. rewrite Hq2.
    destruct (job_queue w) as [q | ] eqn:Hq.
    + destruct (for_each_schedule_removal
                  (filter (fun j => String.eqb (name j)
                                      (str_int (effective_chat_id update))) (jobs q))
                  w2 q Hq2)
        as (w3 & Hrun & _ & Hq3).
      * apply filter_ids_distinct. apply Hok.
      * intros i Hi. apply in_map_iff in Hi. destruct Hi as (x & Hx & Hinx).
        apply filter_In in Hinx. apply in_map_iff. exists x. tauto.
      * rewrite Hrun, reply_text_run. cbn [snd]. unfold called. tidy. rewrite Hq3.
        apply queue_ok_without. exact Hok.
    + cbn [snd]. rewrite Hq2. exact I.
  - rewrite reply_text_run. cbn [snd]. unfold world_ok, called in *. tidy.
    rewrite Hq1. exact Hok.
Qed.

(** *** Subscribe, then unsubscribe *)

(** [/stop] for a chat that is in the table, with a store that answers: the
    chat is gone from the table and no job carries its name, whether the
    handler returns, raises at the missing job queue or at its reply. *)
Lemma stop_subscribed (update : Update) (context : CallbackContext) (w : World) :
  In (effective_chat_id update) (subscribers w) ->
  supabase_execute env (clock w) = None ->
  supabase_execute env (S (clock w)) = None ->
  world_ok w ->
  ensures (stop env update context) w (fun _ w' =>
    ~ In (effective_chat_id update) (subscribers w') /\
    jobs_named (str_int (effective_chat_id update)) w' = []).
Proof.
  intros Hin Hsel Hdel Hok.
  set (chat_id := effective_chat_id update) in *.
  unfold ensures, stop, bind. fold chat_id.
  rewrite get_subscribers_run, Hsel.
  apply existsb_eqb_In in Hin. rewrite Hin.
  rewrite remove_subscriber_run.
  change (clock (called DbSelect w)) with (S (clock w)). rewrite Hdel.
  set (w2 := set_subscribers _ _).
  assert (Hs2 : subscribers w2 = filter (fun row => negb (row =? chat_id)) (subscribers w))
    by reflexivity.
  assert (Hq2 : job_queue w2 = job_queue w) by reflexivity.
  clearbody w2.
  unfold get_jobs_by_name. rewrite Hq2.
  unfold world_ok in Hok.
  destruct (job_queue w) as [q | ] eqn:Hq.
  - destruct Hok as [Hnodup _].
    destruct (for_each_schedule_removal
                (filter (fun j => String.eqb (name j) (str_int chat_id)) (jobs q))
                w2 q)
      as (w3 & Hrun & Hs3 & Hq3).
    + congruence.
    + apply filter_ids_distinct. exact Hnodup.
    + intros i Hi. apply in_map_iff in Hi. destruct Hi as (x & Hx & Hinx).
      apply filter_In in Hinx. apply in_map_iff. exists x. tauto.
    + rewrite Hrun, reply_text_run. cbn [fst snd]. unfold called, jobs_named. tidy.
      rewrite Hs3, Hs2, Hq3. cbn [jobs]. split.
      * apply deleted_not_in.
      * apply without_named.
  - cbn [fst snd]. unfold jobs_named. rewrite Hs2, Hq2. split.
    + apply deleted_not_in.
    + reflexivity.
Qed.

(** C2: with a store that answers and a job queue whose identifiers are
    distinct, [/start] followed by [/stop] for the same chat ends in a world
    where [get_subscribers] returns a list without the chat and where no job
    carries the name of the chat. *)
Theorem subscribe_unsubscribe_roundtrip (update : Update)
    (context context' : CallbackContext) (w : World) :
  (forall t, supabase_execute env t = None) ->
  world_ok w ->
  let chat_id := effective_chat_id update in
  let w1 := snd (start py env update context w) in
  let w2 := snd (stop env update context' w1) in
  (exists subs, fst (get_subscribers env w2) = Return subs /\ ~ In chat_id subs) /\
  ~ In chat_id (subscribers w2) /\
  jobs_named (str_int chat_id) w2 = [].
Proof.
  intros Hstore Hok chat_id w1 w2.
  assert (Hok1 : world_ok w1) by (apply start_world_ok; exact Hok).
  assert (Hin1 : In chat_id (subscribers w1)).
  { subst w1. rewrite start_subscribers, Hstore.
    apply in_or_app. right. left. reflexivity. }
  pose proof (stop_subscribed update context' w1 Hin1 (Hstore _) (Hstore _) Hok1) as H2.
  unfold ensures in H2. fold chat_id w2 in H2. destruct H2 as [Hnotin Hjobs].
  split; [ | split; assumption].
  exists (subscribers w2). split; [ | exact Hnotin].
  rewrite get_subscribers_run, Hstore. reflexivity.
Qed.

End Handlers.

(** ** Concrete runs *)

(** A feed without asteroids for today gives the fixed sentence after one
    HTTP query. *)
Lemma no_asteroids_fallback_witness :
  get_asteroid_message Sample.py Sample.env_quiet_sky Sample.no_queue =
    (Return nenhum_asteroide,
     {| clock := 2; subscribers := []; job_queue := None; log := [];
        trace := [HttpGet "https://api.nasa.gov/neo/rest/v1/feed?start_date=2024-01-02&end_date=2024-01-02&api_key=DEMO_KEY"] |}).
Proof.
  apply (no_asteroids_fallback Sample.py Sample.env_quiet_sky Sample.no_queue
           {| status_code := 200; json := Return (Sample.feed []) |}
           (Sample.feed []) (VDict [(Sample.hoje, VList [])]) (VList []));
    reflexivity.
Defined.

(** [/start] of chat 12345 on a fresh bot with a job queue registers job 0. *)
Lemma start_registers_daily_trigger_witness :
  job_queue (snd (start Sample.py Sample.env (Sample.update 12345) Sample.context
                    Sample.fresh_queue)) =
    Some {| next_id := 1; jobs := [daily_job 0 12345] |}.
Proof.
  destruct (start_registers_daily_trigger Sample.py Sample.env (Sample.update 12345)
              Sample.context Sample.fresh_queue
              (snd (start Sample.py Sample.env (Sample.update 12345) Sample.context
                      Sample.fresh_queue))
              Sample.empty_queue)
    as [H _].
  - reflexivity.
  - vm_compute. reflexivity.
  - exact H.
Defined.

(** [/start] of chat 12345 without a job queue: the row, the error reply and
    nothing else. *)
Lemma start_without_job_queue_witness :
  exists w',
    start Sample.py Sample.env (Sample.update 12345) Sample.context Sample.no_queue =
      (Return tt, w') /\
    subscribers w' = [12345] /\
    trace w' = [DbInsert 12345; ReplyText 12345 erro_job_queue] /\
    existsb (is_delivery 12345) (trace w') = false /\
    log w' = ["JobQueue não está disponível. Instale python-telegram-bot[job-queue]"%string] /\
    job_queue w' = None /\
    jobs_named "12345" w' = [].
Proof.
  apply (start_without_job_queue Sample.py Sample.env (Sample.update 12345)
           Sample.context Sample.no_queue).
  reflexivity.
Defined.

(** The claim of an immediate message fails on that run: chat 12345 is in
    the table, the reply is the error, no job exists, and nothing was
    delivered to the chat. *)
Lemma start_without_job_queue_no_delivery :
  job_queue Sample.no_queue = None /\
  In 12345 (subscribers (snd (start Sample.py Sample.env (Sample.update 12345)
                                 Sample.context Sample.no_queue))) /\
  trace (snd (start Sample.py Sample.env (Sample.update 12345)
                Sample.context Sample.no_queue)) =
    [DbInsert 12345; ReplyText 12345 erro_job_queue] /\
  jobs_named "12345" (snd (start Sample.py Sample.env (Sample.update 12345)
                             Sample.context Sample.no_queue)) = [] /\
  existsb (is_delivery 12345)
    (trace (snd (start Sample.py Sample.env (Sample.update 12345)
                   Sample.context Sample.no_queue))) <> true.
Proof.
  repeat split.
  - left. reflexivity.
  - vm_compute. discriminate.
Qed.

(** [/stop] of chat 999, which never subscribed. *)
Lemma stop_not_subscribed_witness :
  exists w',
    stop Sample.env (Sample.update 999) Sample.context Sample.subscribed = (Return tt, w') /\
    subscribers w' = [12345] /\
    job_queue w' = Some {| next_id := 1; jobs := [daily_job 0 12345] |} /\
    trace w' = [DbSelect; ReplyText 999 nenhum_envio].
Proof.
  apply (stop_not_subscribed Sample.env (Sample.update 999) Sample.context
           Sample.subscribed [12345]
           (snd (get_subscribers Sample.env Sample.subscribed))).
  - reflexivity.
  - simpl. lia.
Defined.

(** [/stop] of chat 12345, subscribed, on a bot without job queue. *)
Lemma stop_without_job_queue_witness :
  exists w',
    stop Sample.env (Sample.update 12345) Sample.context Sample.subscribed_no_queue =
      (Raise (AttributeError "'NoneType' object has no attribute 'get_jobs_by_name'"), w') /\
    trace w' = [DbSelect; DbDelete 12345] /\
    subscribers w' = [] /\
    ~ In 12345 [] /\
    job_queue w' = None.
Proof.
  apply (stop_without_job_queue Sample.env (Sample.update 12345) Sample.context
           Sample.subscribed_no_queue [12345]
           (snd (get_subscribers Sample.env Sample.subscribed_no_queue))).
  - reflexivity.
  - simpl. lia.
  - reflexivity.
Defined.

(** [/start] then [/stop] of chat 12345 on a fresh bot. *)
Lemma subscribe_unsubscribe_roundtrip_witness :
  (exists subs,
     fst (get_subscribers Sample.env
            (snd (stop Sample.env (Sample.update 12345) Sample.context
                    (snd (start Sample.py Sample.env (Sample.update 12345) Sample.context
                            Sample.fresh_queue))))) = Return subs /\
     ~ In 12345 subs) /\
  ~ In 12345
      (subscribers
         (snd (stop Sample.env (Sample.update 12345) Sample.context
                 (snd (start Sample.py Sample.env (Sample.update 12345) Sample.context
                         Sample.fresh_queue))))) /\
  jobs_named "12345"
    (snd (stop Sample.env (Sample.update 12345) Sample.context
            (snd (start Sample.py Sample.env (Sample.update 12345) Sample.context
                    Sample.fresh_queue)))) = [].
Proof.
  apply (subscribe_unsubscribe_roundtrip Sample.py Sample.env (Sample.update 12345)
           Sample.context Sample.context Sample.fresh_queue).
  - intro t. reflexivity.
  - simpl. split; constructor.
Defined.

(** An image search whose first link has a number for [href]: the function
    returns the number, so it does not always return a string or [None]. *)
Lemma imagem_espacial_aleatoria_href_number :
  fst (imagem_espacial_aleatoria Sample.py Sample.env_href_number Sample.no_queue) =
    Return (VInt 5) /\
  ~ (forall py env w, exists v w',
       imagem_espacial_aleatoria py env w = (Return v, w') /\
       (v = VNone \/ exists url, v = VStr url)).
Proof.
  split; [vm_compute; reflexivity | ].
  intro H.
  destruct (H Sample.py Sample.env_href_number Sample.no_queue) as (v & w' & Hrun & Hv).
  vm_compute in Hrun. inversion Hrun; subst.
  destruct Hv as [Hv | [url Hv]]; discriminate Hv.
Qed.

(** ** More on the Subscriber Store *)

Section StoreMore.

Variable env : Env.

Lemma filter_absent (chat_id : Z) (rows : list Z) :
  ~ In chat_id rows -> filter (fun row => negb (row =? chat_id)) rows = rows.
Proof.
  induction rows as [ | r rows IH]; intro Hnotin; [reflexivity | ].
  cbn. destruct (Z.eqb_spec r chat_id) as [-> | Hne].
  - exfalso. apply Hnotin. left. reflexivity.
  - cbn. f_equal. apply IH. intro Hin. apply Hnotin. right. exact Hin.
Qed.

Lemma filter_app_last (chat_id : Z) (rows : list Z) :
  filter (fun row => negb (row =? chat_id)) (rows ++ [chat_id]) =
  filter (fun row => negb (row =? chat_id)) rows.
Proof.
  rewrite filter_app. cbn. rewrite Z.eqb_refl. cbn. apply app_nil_r.
Qed.

(** X1: [add_subscriber(c)] followed by [remove_subscriber(c)], with a store
    that takes both calls, leaves the table without any row of [c]: the row
    just added and every earlier row of the chat are gone, the rows of the
    other chats stay in their order.  When [c] had no row before, the table
    is back to what it was. *)
Theorem add_then_remove (chat_id : Z) (w : World) :
  supabase_execute env (clock w) = None ->
  supabase_execute env (S (clock w)) = None ->
  let w2 := snd (remove_subscriber env chat_id (snd (add_subscriber env chat_id w))) in
  subscribers w2 = filter (fun row => negb (row =? chat_id)) (subscribers w) /\
  (~ In chat_id (subscribers w) -> subscribers w2 = subscribers w) /\
  job_queue w2 = job_queue w /\
  log w2 = log w.
Proof.
  intros Hins Hdel w2. subst w2.
  rewrite add_subscriber_run, Hins. cbn [snd].
  rewrite remove_subscriber_run. unfold called. tidy. rewrite Hdel. tidy.
  rewrite filter_app_last.
  repeat split. apply filter_absent.
Qed.

(** X2: the three store functions return normally whatever the store does.
    A call the store refuses leaves the table as it was and writes exactly
    one line to the log; [get_subscribers] then returns the empty list. *)
Theorem store_failure_is_swallowed (chat_id : Z) (w : World) (e : exn) :
  supabase_execute env (clock w) = Some e ->
  (fst (add_subscriber env chat_id w) = Return tt /\
   subscribers (snd (add_subscriber env chat_id w)) = subscribers w /\
   log (snd (add_subscriber env chat_id w)) =
     (log w ++ [("Erro ao adicionar inscrito: " ++ str_exn e)%string])%list) /\
  (fst (remove_subscriber env chat_id w) = Return tt /\
   subscribers (snd (remove_subscriber env chat_id w)) = subscribers w /\
   log (snd (remove_subscriber env chat_id w)) =
     (log w ++ [("Erro ao remover inscrito: " ++ str_exn e)%string])%list) /\
  (fst (get_subscribers env w) = Return [] /\
   subscribers (snd (get_subscribers env w)) = subscribers w /\
   log (snd (get_subscribers env w)) =
     (log w ++ [("Erro ao buscar inscritos: " ++ str_exn e)%string])%list).
Proof.
  intro Hfail.
  rewrite add_subscriber_run, remove_subscriber_run, get_subscribers_run, Hfail.
  repeat split.
Qed.

(** X3: with a store that answers, [get_subscribers()] after
    [add_subscriber(c)] returns the rows that were there, in their order,
    followed by [c]; nothing in the script keeps a chat from being added
    twice, and a second [add_subscriber(c)] gives a second row. *)
Theorem add_then_list (chat_id : Z) (w : World) :
  supabase_execute env (clock w) = None ->
  supabase_execute env (S (clock w)) = None ->
  fst (get_subscribers env (snd (add_subscriber env chat_id w))) =
    Return (subscribers w ++ [chat_id])%list /\
  subscribers (snd (add_subscriber env chat_id (snd (add_subscriber env chat_id w)))) =
    (subscribers w ++ [chat_id; chat_id])%list.
Proof.
  intros H0 H1.
  rewrite !add_subscriber_run, H0. cbn [snd].
  rewrite get_subscribers_run. unfold called. tidy. rewrite H1. tidy.
  split; [reflexivity | ]. rewrite <- app_assoc. reflexivity.
Qed.

End StoreMore.

(** ** More on the Content Fetcher *)

Section ContentMore.

Variable py : Builtins.
Variable env : Env.

(** [random.choice] of a non-empty list returns one of its elements. *)
Lemma choice_list (r : nat) (x : value) (l : list value) :
  exists y, choice r (VList (x :: l)) = Return y /\ In y (x :: l).
Proof.
  unfold choice, len, rbind, getindex.
  set (n := List.length (x :: l)).
  assert (Hlt : (r mod n < n)%nat) by (apply Nat.mod_upper_bound; discriminate).
  destruct (nth_error (x :: l) (r mod n)) as [y | ] eqn:Hnth.
  - exists y. split; [reflexivity | ]. eapply nth_error_In. exact Hnth.
  - apply nth_error_None in Hnth. fold n in Hnth. lia.
Qed.

(** X4: whatever the outside answers, [imagem_espacial_aleatoria] makes
    exactly one external call: an HTTP GET of the image search for one of
    the eleven keywords of the script.  It never calls the translator, the
    store or the bot. *)
Theorem imagem_espacial_aleatoria_one_query (w : World) :
  exists query,
    In query ["galaxy"; "nebula"; "saturn"; "jupiter"; "apollo"; "earth"; "star";
              "sun"; "planet"; "asteroid"; "space"]%string /\
    trace (snd (imagem_espacial_aleatoria py env w)) =
      (trace w ++ [HttpGet ("https://images-api.nasa.gov/search?q=" ++ query ++
                            "&media_type=image")])%list.
Proof.
  destruct (choice_list (random env (clock w)) (VStr "galaxy")
              [VStr "nebula"; VStr "saturn"; VStr "jupiter"; VStr "apollo";
               VStr "earth"; VStr "star"; VStr "sun"; VStr "planet";
               VStr "asteroid"; VStr "space"])
    as (q & Hq & Hin).
  fold keywords in Hq.
  assert (Hquery : exists query, q = VStr query /\
            In query ["galaxy"; "nebula"; "saturn"; "jupiter"; "apollo"; "earth"; "star";
                      "sun"; "planet"; "asteroid"; "space"]%string).
  { cbn in Hin.
    repeat (destruct Hin as [<- | Hin]; [eexists; split; [reflexivity | cbn; tauto] | ]).
    destruct Hin. }
  destruct Hquery as (query & -> & Hmem).
  exists query. split; [exact Hmem | ].
  change (ensures (imagem_espacial_aleatoria py env) w (fun _ w' =>
    trace w' = (trace w ++ [HttpGet (search_url py (VStr query))])%list)).
  unfold imagem_espacial_aleatoria, http_get, random_choice.
  repeat step; reflexivity.
Qed.

(** X5: the converse of the description of the results: when the search
    went through with status 200, the result set is not empty and the item
    drawn has [links[0].href], that value is what the function returns. *)
Theorem imagem_espacial_aleatoria_found (w : World) (v : value) :
  image_found py env (clock w) v ->
  fst (imagem_espacial_aleatoria py env w) = Return v.
Proof.
  intros (query & res & data & collection & items & imagem & links & link &
          Hq & Hget & Hstatus & Hjson & Hc & Hitems & Htruthy & Him & Hlinks & Hlink & Hhref).
  change (1 + clock w)%nat with (S (clock w)) in Hget.
  change (2 + clock w)%nat with (S (S (clock w))) in Him.
  assert (Hstatus' : negb (status_code res =? 200) = false)
    by (rewrite Hstatus; reflexivity).
  assert (Htruthy' : negb (truthy items) = false)
    by (rewrite Htruthy; reflexivity).
  change (ensures (imagem_espacial_aleatoria py env) w (fun r _ => r = Return v)).
  unfold imagem_espacial_aleatoria, http_get, random_choice.
  repeat step. reflexivity.
Qed.

(** X6: when the feed has an asteroid for today whose fields convert
    ([asteroid_found]), [get_asteroid_message] returns the translation of
    the message it built from the name and the truncated distance and
    velocity, or that message itself when the translator raises.  The run is
    the feed query followed by the one translation. *)
Theorem get_asteroid_message_found (w : World) (nome : value) (d v : Z) :
  asteroid_found py env (clock w) nome d v ->
  fst (get_asteroid_message py env w) =
    Return (match translate env (3 + clock w) (msg_original py nome d v) with
            | Return s => s
            | Raise _ => msg_original py nome d v
            end) /\
  trace (snd (get_asteroid_message py env w)) =
    (trace w ++ [HttpGet (feed_url env (now env (clock w)));
                 Translate (msg_original py nome d v)])%list.
Proof.
  intros (res & data & neo & asteroides & asteroide & cad & cad0 & rv & kph & md & km &
          fv & fd & Hget & Hstatus & Hjson & Hneo & Htoday & Htruthy & Hast & Hnome &
          Hcad & Hcad0 & Hrv & Hkph & Hfv & Hmd & Hkm & Hfd & Hd & Hv).
  change (1 + clock w)%nat with (S (clock w)) in Hget.
  change (2 + clock w)%nat with (S (S (clock w))) in Hast.
  assert (Hstatus' : negb (status_code res =? 200) = false)
    by (rewrite Hstatus; reflexivity).
  assert (Htruthy' : negb (truthy asteroides) = false)
    by (rewrite Htruthy; reflexivity).
  change (ensures (get_asteroid_message py env) w (fun r w' =>
    r = Return (match translate env (S (S (S (clock w)))) (msg_original py nome d v) with
                | Return s => s
                | Raise _ => msg_original py nome d v
                end) /\
    trace w' = (trace w ++ [HttpGet (feed_url env (now env (clock w)));
                            Translate (msg_original py nome d v)])%list)).
  unfold get_asteroid_message, today, http_get, random_choice, traduzir, google_translate.
  repeat step; (split; [reflexivity | rewrite <- app_assoc; reflexivity]).
Qed.

(** X7: whatever the outside answers, the external calls of
    [get_asteroid_message] are one HTTP GET of the feed, with today for both
    dates, and after it at most one call of the translator; the store and
    the bot are not called. *)
Theorem get_asteroid_message_calls (w : World) :
  exists rest,
    trace (snd (get_asteroid_message py env w)) =
      (trace w ++ HttpGet (feed_url env (now env (clock w))) :: rest)%list /\
    (rest = [] \/ exists texto, rest = [Translate texto]).
Proof.
  change (ensures (get_asteroid_message py env) w (fun _ w' =>
    exists rest,
      trace w' = (trace w ++ HttpGet (feed_url env (now env (clock w))) :: rest)%list /\
      (rest = [] \/ exists texto, rest = [Translate texto]))).
  unfold get_asteroid_message, today, http_get, random_choice, traduzir, google_translate.
  repeat step;
    first
      [ exists []; split; [reflexivity | left; reflexivity]
      | eexists; split; [rewrite <- app_assoc; reflexivity | right; eexists; reflexivity] ].
Qed.

End ContentMore.

(** ** More on the Command Handlers *)

Section HandlersMore.

Variable py : Builtins.
Variable env : Env.

(** [str(chat_id)] tells chats apart. *)
Lemma str_int_inj (a b : Z) : str_int a = str_int b -> a = b.
Proof.
  unfold str_int. intro H.
  assert (Hnorm : forall z, Z.to_int z <> Decimal.Pos Decimal.Nil /\
                            Z.to_int z <> Decimal.Neg Decimal.Nil).
  { intros [ | p | p]; cbn; split; try discriminate;
      intros [= Hp]; exact (DecimalPos.Unsigned.to_uint_nonnil p Hp). }
  apply DecimalZ.to_int_inj.
  assert (Hs : Some (Z.to_int a) = Some (Z.to_int b)).
  { rewrite <- (NilZero.isi (Z.to_int a)), <- (NilZero.isi (Z.to_int b)).
    - rewrite H. reflexivity.
    - apply Hnorm.
    - apply Hnorm.
    - apply Hnorm.
    - apply Hnorm. }
  injection Hs. trivial.
Qed.

(** Two jobs of a queue with the same identifier are the same job. *)
Lemma job_id_inj (js : list Job) (x y : Job) :
  NoDup (map job_id js) -> In x js -> In y js -> job_id x = job_id y -> x = y.
Proof.
  induction js as [ | j js IH]; intros Hd Hx Hy Heq; [destruct Hx | ].
  cbn in Hd. apply NoDup_cons_iff in Hd. destruct Hd as [Hj Hd].
  destruct Hx as [-> | Hx], Hy as [-> | Hy].
  - reflexivity.
  - exfalso. apply Hj. rewrite Heq. apply in_map. exact Hy.
  - exfalso. apply Hj. rewrite <- Heq. apply in_map. exact Hx.
  - apply IH; assumption.
Qed.

(** With distinct identifiers, dropping the jobs of a name one by one
    leaves exactly the jobs of the other names. *)
Lemma without_named_filter (nm : string) (js : list Job) :
  NoDup (map job_id js) ->
  without (filter (fun j => String.eqb (name j) nm) js) js =
  filter (fun j => negb (String.eqb (name j) nm)) js.
Proof.
  intro Hd. unfold without. apply filter_ext_in. intros x Hx. f_equal.
  destruct (String.eqb (name x) nm) eqn:Hname.
  - apply existsb_exists. exists x. split; [ | apply Nat.eqb_refl].
    apply filter_In. split; assumption.
  - apply not_true_is_false. intro Hex. apply existsb_exists in Hex.
    destruct Hex as (y & Hy & Hid). apply filter_In in Hy. destruct Hy as [Hy Hyname].
    apply Nat.eqb_eq in Hid.
    assert (x = y) by (eapply job_id_inj; eassumption).
    subst y. congruence.
Qed.

(** What [/stop] does to the table and to the queue, in every case: nothing
    when the chat is not in the list it gets (also when the select fails);
    otherwise the rows of the chat go (unless the delete fails) and the jobs
    named after the chat go. *)
Lemma stop_effect (update : Update) (context : CallbackContext) (w : World) :
  world_ok w ->
  let chat_id := effective_chat_id update in
  let found :=
    match supabase_execute env (clock w) with
    | None => existsb (Z.eqb chat_id) (subscribers w)
    | Some _ => false
    end in
  subscribers (snd (stop env update context w)) =
    (if found
     then match supabase_execute env (S (clock w)) with
          | None => filter (fun row => negb (row =? chat_id)) (subscribers w)
          | Some _ => subscribers w
          end
     else subscribers w) /\
  job_queue (snd (stop env update context w)) =
    (if found
     then match job_queue w with
          | None => None
          | Some q =>
              Some {| next_id := next_id q;
                      jobs := filter (fun j => negb (String.eqb (name j) (str_int chat_id)))
                                (jobs q) |}
          end
     else job_queue w).
Proof.
  intros Hok chat_id found. subst found.
  unfold stop, bind. fold chat_id.
  rewrite get_subscribers_run.
  destruct (supabase_execute env (clock w)) as [e | ] eqn:Hsel.
  - cbn [existsb]. rewrite reply_text_run. split; reflexivity.
  - destruct (existsb (Z.eqb chat_id) (subscribers w)) eqn:Hmem.
    + rewrite remove_subscriber_run.
      change (clock (called DbSelect w)) with (S (clock w)).
      set (w2 := match supabase_execute env (S (clock w)) with
                 | None => _
                 | Some e => _
                 end).
      assert (Hs2 : subscribers w2 =
                    match supabase_execute env (S (clock w)) with
                    | None => filter (fun row => negb (row =? chat_id)) (subscribers w)
                    | Some _ => subscribers w
                    end)
        by (subst w2; destruct (supabase_execute env (S (clock w))); reflexivity).
      assert (Hq2 : job_queue w2 = job_queue w)
        by (subst w2; destruct (supabase_execute env (S (clock w))); reflexivity).
      clearbody w2. rewrite <- Hs2.
      unfold get_jobs_by_name. rewrite Hq2.
      unfold world_ok in Hok.
      destruct (job_queue w) as [q | ] eqn:Hq.
      * destruct Hok as [Hnodup _].
        destruct (for_each_schedule_removal
                    (filter (fun j => String.eqb (name j) (str_int chat_id)) (jobs q))
                    w2 q Hq2)
          as (w3 & Hrun & Hs3 & Hq3).
        -- apply filter_ids_distinct. exact Hnodup.
        -- intros i Hi. apply in_map_iff in Hi. destruct Hi as (x & Hx & Hinx).
           apply filter_In in Hinx. apply in_map_iff. exists x. tauto.
        -- rewrite Hrun, reply_text_run. cbn [snd]. unfold called. tidy.
           rewrite Hs3, Hq3, without_named_filter by exact Hnodup.
           split; reflexivity.
      * cbn [snd]. split; [reflexivity | exact Hq2].
    + rewrite reply_text_run. split; reflexivity.
Qed.

End HandlersMore.

Section HandlersMore2.

Variable py : Builtins.
Variable env : Env.

Lemma filter_filter_implied {A : Type} (p q : A -> bool) (l : list A) :
  (forall x, p x = true -> q x = true) ->
  filter p (filter q l) = filter p l.
Proof.
  intro Himp. induction l as [ | x l IH]; [reflexivity | ].
  cbn. destruct (q x) eqn:Hq; cbn.
  - rewrite IH. reflexivity.
  - destruct (p x) eqn:Hp; [ | exact IH].
    rewrite (Himp x Hp) in Hq. discriminate.
Qed.

(** X8: [/stop] of one chat does not touch the others: for every chat [d]
    other than the one that sent the command, the rows of [d] in the table
    and the jobs named after [d] are after the handler what they were before
    it, whatever the store and Telegram answer. *)
Theorem stop_leaves_other_chats (update : Update) (context : CallbackContext)
    (w : World) (d : Z) :
  world_ok w ->
  d <> effective_chat_id update ->
  filter (Z.eqb d) (subscribers (snd (stop env update context w))) =
    filter (Z.eqb d) (subscribers w) /\
  jobs_named (str_int d) (snd (stop env update context w)) = jobs_named (str_int d) w.
Proof.
  intros Hok Hne.
  destruct (stop_effect env update context w Hok) as [Hs Hq].
  cbv zeta in Hs, Hq. unfold jobs_named. rewrite Hs, Hq.
  assert (Hrows : forall rows,
            filter (Z.eqb d)
              (filter (fun row => negb (row =? effective_chat_id update)) rows) =
            filter (Z.eqb d) rows).
  { intro rows. apply filter_filter_implied. intros x Hx.
    apply Z.eqb_eq in Hx. subst x. apply negb_true_iff, Z.eqb_neq. exact Hne. }
  assert (Hjobs : forall js,
            filter (fun j => String.eqb (name j) (str_int d))
              (filter (fun j => negb (String.eqb (name j)
                                        (str_int (effective_chat_id update)))) js) =
            filter (fun j => String.eqb (name j) (str_int d)) js).
  { intro js. apply filter_filter_implied. intros x Hx.
    apply String.eqb_eq in Hx. apply negb_true_iff, String.eqb_neq.
    rewrite Hx. intro Heq. apply Hne. apply str_int_inj. exact Heq. }
  destruct (match supabase_execute env (clock w) with
            | None => existsb (Z.eqb (effective_chat_id update)) (subscribers w)
            | Some _ => false
            end).
  - split.
    + destruct (supabase_execute env (S (clock w))); [reflexivity | apply Hrows].
    + destruct (job_queue w) as [q | ]; [cbn [jobs]; apply Hjobs | reflexivity].
  - split; reflexivity.
Qed.

(** X9: when the select of [get_subscribers] fails, [/stop] takes the chat
    for one that never subscribed, even when its row and its job are there:
    it logs the store error, replies [nenhum_envio] and leaves the table and
    the job queue as they were. *)
Theorem stop_when_select_fails (update : Update) (context : CallbackContext)
    (w : World) (e : exn) :
  supabase_execute env (clock w) = Some e ->
  exists w',
    stop env update context w =
      (match bot_send env (S (clock w)) with Some e' => Raise e' | None => Return tt end, w') /\
    subscribers w' = subscribers w /\
    job_queue w' = job_queue w /\
    trace w' = (trace w ++ [DbSelect; ReplyText (effective_chat_id update) nenhum_envio])%list /\
    log w' = (log w ++ [("Erro ao buscar inscritos: " ++ str_exn e)%string])%list.
Proof.
  intro Hfail. unfold stop, bind.
  rewrite get_subscribers_run, Hfail. cbn [existsb].
  rewrite reply_text_run. eexists. split; [reflexivity | ].
  unfold called. tidy. rewrite <- app_assoc. repeat split.
Qed.

(** X10: [/start] is not idempotent.  Two [/start] of the same chat that
    both return normally, with a store that takes both inserts, leave two
    rows of the chat in the table and two jobs named after it in the queue,
    with consecutive identifiers. *)
Theorem start_twice_duplicates (update : Update) (context context' : CallbackContext)
    (w : World) (q : JobQueue) :
  job_queue w = Some q ->
  let chat_id := effective_chat_id update in
  let w1 := snd (start py env update context w) in
  let w2 := snd (start py env update context' w1) in
  supabase_execute env (clock w) = None ->
  supabase_execute env (clock w1) = None ->
  fst (start py env update context w) = Return tt ->
  fst (start py env update context' w1) = Return tt ->
  subscribers w2 = (subscribers w ++ [chat_id; chat_id])%list /\
  job_queue w2 =
    Some {| next_id := 2 + next_id q;
            jobs := jobs q ++ [daily_job (next_id q) chat_id;
                              daily_job (S (next_id q)) chat_id] |} /\
  jobs_named (str_int chat_id) w2 =
    (jobs_named (str_int chat_id) w ++
     [daily_job (next_id q) chat_id; daily_job (S (next_id q)) chat_id])%list.
Proof.
  intros Hq chat_id w1 w2 Hins1 Hins2 Hret1 Hret2.
  pose proof (start_with_job_queue py env update context w q Hq) as H1.
  unfold ensures in H1. fold w1 in H1. rewrite Hret1, Hins1 in H1.
  destruct H1 as [Hs1 Hq1].
  pose proof (start_with_job_queue py env update context' w1 _ Hq1) as H2.
  unfold ensures in H2. fold w2 in H2. rewrite Hret2, Hins2 in H2.
  destruct H2 as [Hs2 Hq2]. cbn [next_id jobs] in Hq2.
  fold chat_id in Hs1, Hs2, Hq2.
  split; [rewrite Hs2, Hs1, <- app_assoc; reflexivity | ].
  rewrite <- app_assoc in Hq2. split; [exact Hq2 | ].
  unfold jobs_named. rewrite Hq2, Hq. cbn [jobs].
  rewrite filter_app. cbn [filter name daily_job app].
  rewrite String.eqb_refl. reflexivity.
Qed.

(** X11: a failed insert does not stop [/start].  When the store refuses
    the insert of a chat that has no row, and the handler returns normally,
    the daily job is registered all the same; a later [/stop] finds no row
    of the chat, so it cancels nothing: the job stays in the queue and the
    table is as before. *)
Theorem start_with_failed_insert_leaves_job (update : Update)
    (context context' : CallbackContext) (w : World) (q : JobQueue) (e : exn) :
  job_queue w = Some q ->
  queue_ok q ->
  supabase_execute env (clock w) = Some e ->
  ~ In (effective_chat_id update) (subscribers w) ->
  fst (start py env update context w) = Return tt ->
  let chat_id := effective_chat_id update in
  let w1 := snd (start py env update context w) in
  let w2 := snd (stop env update context' w1) in
  subscribers w2 = subscribers w /\
  job_queue w2 =
    Some {| next_id := S (next_id q); jobs := jobs q ++ [daily_job (next_id q) chat_id] |} /\
  In (daily_job (next_id q) chat_id) (jobs_named (str_int chat_id) w2).
Proof.
  intros Hq Hqok Hins Hnotin Hret chat_id w1 w2.
  assert (Hok : world_ok w) by (unfold world_ok; rewrite Hq; exact Hqok).
  pose proof (start_with_job_queue py env update context w q Hq) as H1.
  unfold ensures in H1. fold w1 in H1. rewrite Hret, Hins in H1.
  destruct H1 as [Hs1 Hq1]. fold chat_id in Hq1.
  assert (Hok1 : world_ok w1) by (apply start_world_ok; exact Hok).
  destruct (stop_effect env update context' w1 Hok1) as [Hs2 Hq2].
  cbv zeta in Hs2, Hq2. fold w2 chat_id in Hs2, Hq2.
  assert (Hfound : match supabase_execute env (clock w1) with
                   | None => existsb (Z.eqb chat_id) (subscribers w1)
                   | Some _ => false
                   end = false).
  { destruct (supabase_execute env (clock w1)); [reflexivity | ].
    apply not_true_is_false. intro Hmem. apply existsb_eqb_In in Hmem.
    rewrite Hs1 in Hmem. contradiction. }
  rewrite Hfound in Hs2, Hq2.
  split; [congruence | ]. split; [congruence | ].
  unfold jobs_named. rewrite Hq2, Hq1. cbn [jobs].
  apply filter_In. split.
  - apply in_or_app. right. left. reflexivity.
  - cbn [name daily_job]. apply String.eqb_refl.
Qed.

End HandlersMore2.

(** ** How a handler run is composed *)

Lemma ensures_weaken {A : Type} (m : M A) (w : World) (Q Q' : result A -> World -> Prop) :
  ensures m w Q -> (forall r w', Q r w' -> Q' r w') -> ensures m w Q'.
Proof. unfold ensures. auto. Qed.

Lemma ensures_and {A : Type} (m : M A) (w : World) (Q Q' : result A -> World -> Prop) :
  ensures m w Q -> ensures m w Q' -> ensures m w (fun r w' => Q r w' /\ Q' r w').
Proof. unfold ensures. auto. Qed.

Section Composition.

Variable py : Builtins.
Variable env : Env.

Lemma get_asteroid_message_fetched (w : World) :
  ensures (get_asteroid_message py env) w (fun r w' =>
    (exists s, r = Return s) /\ fetched w w').
Proof.
  apply ensures_weaken with
    (Q := fun r w' =>
       ((exists s, r = Return s) /\
        exists calls, trace w' = (trace w ++ calls)%list /\ forallb is_fetch calls = true) /\
       (subscribers w' = subscribers w /\ job_queue w' = job_queue w)).
  - apply ensures_and.
    + unfold get_asteroid_message, today, http_get, random_choice, traduzir,
        google_translate.
      repeat step;
        (split; [eexists; reflexivity | ]);
        first
          [ exists []; split; [symmetry; apply app_nil_r | reflexivity]
          | eexists; split; [rewrite <- ?app_assoc; reflexivity | reflexivity] ].
    + apply ensures_keeps; [apply keeps_get_asteroid_message | auto].
  - unfold fetched. intros r w' ((Hr & Hc) & Hs & Hq). auto.
Qed.

Lemma imagem_espacial_aleatoria_fetched (w : World) :
  ensures (imagem_espacial_aleatoria py env) w (fun r w' =>
    (exists v, r = Return v) /\ fetched w w').
Proof.
  apply ensures_weaken with
    (Q := fun r w' =>
       ((exists v, r = Return v) /\
        exists calls, trace w' = (trace w ++ calls)%list /\ forallb is_fetch calls = true) /\
       (subscribers w' = subscribers w /\ job_queue w' = job_queue w)).
  - apply ensures_and.
    + unfold imagem_espacial_aleatoria, http_get, random_choice.
      repeat step;
        (split; [eexists; reflexivity | ]);
        first
          [ exists []; split; [symmetry; apply app_nil_r | reflexivity]
          | eexists; split; [rewrite <- ?app_assoc; reflexivity | reflexivity] ].
    + apply ensures_keeps; [apply keeps_imagem_espacial_aleatoria | auto].
  - unfold fetched. intros r w' ((Hr & Hc) & Hs & Hq). auto.
Qed.

(** With a context, [send_message] makes one call, addressed to the chat,
    and returns. *)
Lemma send_message_delivery (chat_id : Z) (text : string) (imagem : value)
    (context : CallbackContext) (w : World) :
  exists ev w',
    send_message env chat_id text imagem (Some context) w = (Return tt, w') /\
    is_delivery chat_id ev = true /\
    trace w' = (trace w ++ [ev])%list /\
    subscribers w' = subscribers w /\ job_queue w' = job_queue w /\
    clock w' = S (clock w).
Proof.
  unfold send_message, try_except.
  destruct (truthy imagem);
    [ exists (SendPhoto chat_id imagem (text ++ nota))
    | exists (SendMessage chat_id text) ];
    rewrite bot_call_run;
    destruct (bot_send env (clock w)); eexists;
    (split; [reflexivity | ]); cbn [is_delivery]; rewrite Z.eqb_refl; repeat split.
Qed.

(** The fetch-and-deliver cycle of [start] and of a daily fire. *)
Lemma fetch_and_deliver (chat_id : Z) (context : CallbackContext) (w : World) :
  exists calls ev w',
    (mensagem <- get_asteroid_message py env ;;
     imagem <- imagem_espacial_aleatoria py env ;;
     send_message env chat_id mensagem imagem (Some context)) w = (Return tt, w') /\
    trace w' = (trace w ++ calls ++ [ev])%list /\
    forallb is_fetch calls = true /\
    is_delivery chat_id ev = true /\
    subscribers w' = subscribers w /\ job_queue w' = job_queue w.
Proof.
  unfold bind.
  pose proof (get_asteroid_message_fetched w) as H1. unfold ensures in H1.
  destruct (get_asteroid_message py env w) as [r1 w1]. cbn [fst snd] in H1.
  destruct H1 as ((mensagem & ->) & Hs1 & Hq1 & calls1 & Ht1 & Hf1).
  pose proof (imagem_espacial_aleatoria_fetched w1) as H2. unfold ensures in H2.
  destruct (imagem_espacial_aleatoria py env w1) as [r2 w2]. cbn [fst snd] in H2.
  destruct H2 as ((imagem & ->) & Hs2 & Hq2 & calls2 & Ht2 & Hf2).
  destruct (send_message_delivery chat_id mensagem imagem context w2)
    as (ev & w3 & Hrun & Hdel & Ht3 & Hs3 & Hq3 & _).
  exists (calls1 ++ calls2)%list, ev, w3.
  split; [exact Hrun | ].
  split; [rewrite Ht3, Ht2, Ht1, <- !app_assoc; reflexivity | ].
  split; [rewrite forallb_app, Hf1, Hf2; reflexivity | ].
  split; [exact Hdel | ]. split; congruence.
Qed.

(** X12: with a job queue, [/start] always goes through the same calls: the
    insert, the calls of the content services, one delivery to the chat and
    the confirmation reply, a refused delivery being no obstacle.  It raises
    exactly when Telegram refuses the confirmation; then no job is
    registered, although the insert and the delivery were made. *)
Theorem start_with_queue_calls (update : Update) (context : CallbackContext)
    (w : World) (q : JobQueue) :
  job_queue w = Some q ->
  let chat_id := effective_chat_id update in
  exists calls ev w',
    start py env update context w =
      (match bot_send env (pred (clock w')) with
       | Some e => Raise e
       | None => Return tt
       end, w') /\
    trace w' = (trace w ++ DbInsert chat_id :: calls ++
                [ev; ReplyText chat_id bot_iniciado])%list /\
    forallb is_fetch calls = true /\
    is_delivery chat_id ev = true /\
    job_queue w' =
      match bot_send env (pred (clock w')) with
      | Some _ => Some q
      | None => Some {| next_id := S (next_id q);
                        jobs := jobs q ++ [daily_job (next_id q) chat_id] |}
      end.
Proof.
  intros Hq chat_id.
  unfold start. fold chat_id. unfold bind at 1 2.
  rewrite add_subscriber_run.
  set (w1 := match supabase_execute env (clock w) with
             | None => _
             | Some e => _
             end).
  assert (H1 : job_queue w1 = Some q /\ trace w1 = (trace w ++ [DbInsert chat_id])%list)
    by (subst w1; destruct (supabase_execute env (clock w)); split; assumption || reflexivity).
  clearbody w1. destruct H1 as [Hq1 Ht1]. rewrite Hq1.
  destruct (fetch_and_deliver chat_id context w1)
    as (calls & ev & w2 & Hrun & Ht2 & Hf & Hdel & _ & Hq2).
  unfold bind in Hrun |- *.
  destruct (get_asteroid_message py env w1) as [[mensagem | e1] wa]; [ | discriminate].
  destruct (imagem_espacial_aleatoria py env wa) as [[imagem | e2] wb]; [ | discriminate].
  rewrite Hrun, reply_text_run. fold chat_id.
  exists calls, ev.
  destruct (bot_send env (clock w2)) as [e | ] eqn:Hbot.
  - exists (called (ReplyText chat_id bot_iniciado) w2).
    unfold called. tidy. cbn [Nat.pred]. rewrite Hbot, Ht2, Ht1, <- !app_assoc.
    repeat split; try assumption. congruence.
  - unfold run_daily, called. tidy. rewrite Hq2, Hq1.
    match goal with |- exists w', (_, ?W) = _ /\ _ => exists W end.
    tidy. cbn [Nat.pred]. rewrite Hbot, Ht2, Ht1, <- !app_assoc.
    repeat split; assumption.
Qed.

(** X13: a daily fire of a job returns normally whatever the services do:
    it makes the calls of the content services and then one delivery, to the
    chat the job carries; it leaves the table and the queue as they are, so
    a failed fetch or a refused delivery never deregisters the job.  Without
    a job in the context it raises before any call. *)
Theorem send_periodic_message_delivers (j : Job) (w : World) :
  (exists calls ev w',
     send_periodic_message py env {| job := Some j |} w = (Return tt, w') /\
     trace w' = (trace w ++ calls ++ [ev])%list /\
     forallb is_fetch calls = true /\
     is_delivery (data j) ev = true /\
     subscribers w' = subscribers w /\ job_queue w' = job_queue w) /\
  send_periodic_message py env {| job := None |} w =
    (Raise (AttributeError "'NoneType' object has no attribute 'data'"), w).
Proof.
  split; [ | reflexivity].
  unfold send_periodic_message. cbn [job].
  apply fetch_and_deliver.
Qed.

End Composition.

(** ** The event loop *)

Section Loop.

Variable py : Builtins.
Variable env : Env.

Lemma start_queue_none (update : Update) (context : CallbackContext) (w : World) :
  job_queue w = None -> job_queue (snd (start py env update context w)) = None.
Proof.
  intro Hq. unfold start, bind. rewrite add_subscriber_run.
  set (w1 := match supabase_execute env (clock w) with
             | None => _
             | Some e => _
             end).
  assert (Hq1 : job_queue w1 = None)
    by (subst w1; destruct (supabase_execute env (clock w)); exact Hq).
  clearbody w1. rewrite Hq1. unfold logger_error. rewrite reply_text_run. exact Hq1.
Qed.

Lemma all_jobs_start (update : Update) (context : CallbackContext) (w : World) :
  Forall is_daily_job (all_jobs w) ->
  Forall is_daily_job (all_jobs (snd (start py env update context w))).
Proof.
  intro Hall. unfold all_jobs in *.
  destruct (job_queue w) as [q | ] eqn:Hq.
  - pose proof (start_with_job_queue py env update context w q Hq) as H.
    unfold ensures in H. destruct H as [_ Hq1]. rewrite Hq1.
    destruct (fst (start py env update context w)); [ | exact Hall].
    cbn [jobs]. apply Forall_app. split; [exact Hall | ].
    constructor; [reflexivity | constructor].
  - rewrite start_queue_none by exact Hq. constructor.
Qed.

Lemma all_jobs_stop (update : Update) (context : CallbackContext) (w : World) :
  world_ok w ->
  Forall is_daily_job (all_jobs w) ->
  Forall is_daily_job (all_jobs (snd (stop env update context w))).
Proof.
  intros Hok Hall.
  destruct (stop_effect env update context w Hok) as [_ Hq]. cbv zeta in Hq.
  unfold all_jobs in *. rewrite Hq.
  destruct (match supabase_execute env (clock w) with
            | None => existsb (Z.eqb (effective_chat_id update)) (subscribers w)
            | Some _ => false
            end); [ | exact Hall].
  destruct (job_queue w) as [q | ]; [ | constructor].
  cbn [jobs]. rewrite Forall_forall in *. intros j Hj.
  apply filter_In in Hj. apply Hall, Hj.
Qed.

(** Handling what comes in keeps the identifiers distinct and the jobs
    daily jobs. *)
Lemma handle_keeps_queue (i : Incoming) (w : World) :
  world_ok w /\ Forall is_daily_job (all_jobs w) ->
  world_ok (snd (handle py env i w)) /\
  Forall is_daily_job (all_jobs (snd (handle py env i w))).
Proof.
  intros [Hok Hall]. destruct i as [update | update | j]; cbn [handle].
  - split; [apply start_world_ok; exact Hok | apply all_jobs_start; exact Hall].
  - split; [apply stop_world_ok; exact Hok | apply all_jobs_stop; assumption].
  - destruct (keeps_send_periodic_message py env {| job := Some j |} w) as [_ Hq].
    unfold world_ok, all_jobs in *. rewrite Hq. split; assumption.
Qed.

(** X14: starting from a bot whose queue holds no job, after any sequence
    of [/start], [/stop] and job fires, with any answers of the services,
    every job of the queue is one that [start] made: it is set for 10:00 at
    UTC-3, runs [send_periodic_message] and is named [str] of the chat it
    delivers to; and no two jobs share an identifier. *)
Theorem run_keeps_jobs_daily (incoming : list Incoming) (w : World) :
  all_jobs w = [] ->
  let w' := run py env incoming w in
  NoDup (map job_id (all_jobs w')) /\
  forall j, In j (all_jobs w') ->
    time j = {| hour := 10; minute := 0; utcoffset_hours := -3 |} /\
    callback j = SendPeriodicMessage /\
    name j = str_int (data j).
Proof.
  intros Hempty w'.
  assert (Hinv : world_ok w' /\ Forall is_daily_job (all_jobs w')).
  { subst w'.
    assert (H0 : world_ok w /\ Forall is_daily_job (all_jobs w)).
    { unfold world_ok, all_jobs in *. rewrite Hempty.
      destruct (job_queue w) as [q | ]; [ | split; [exact I | constructor]].
      unfold queue_ok. rewrite Hempty. repeat constructor. }
    clear Hempty. revert w H0.
    induction incoming as [ | i rest IH]; intros w H0; [exact H0 | ].
    cbn [run]. apply IH. apply handle_keeps_queue. exact H0. }
  destruct Hinv as [Hok Hall]. split.
  - unfold world_ok, all_jobs in *. destruct (job_queue w'); [apply Hok | constructor].
  - intros j Hj. rewrite Forall_forall in Hall. specialize (Hall j Hj).
    unfold is_daily_job in Hall. rewrite Hall. repeat split.
Qed.

(** [get_jobs_by_name(str(c))] on a queue whose jobs are named [str] of
    the chat they carry: the name test is the test of the chat. *)
Lemma named_by_chat (chat_id : Z) (js : list Job) :
  (forall j, In j js -> name j = str_int (data j)) ->
  filter (fun j => String.eqb (name j) (str_int chat_id)) js =
    filter (fun j => data j =? chat_id) js /\
  filter (fun j => negb (String.eqb (name j) (str_int chat_id))) js =
    filter (fun j => negb (data j =? chat_id)) js.
Proof.
  intro Hnames.
  assert (Htest : forall j, In j js ->
            String.eqb (name j) (str_int chat_id) = (data j =? chat_id)).
  { intros j Hj. rewrite (Hnames j Hj).
    destruct (Z.eqb_spec (data j) chat_id) as [-> | Hne].
    - apply String.eqb_refl.
    - apply String.eqb_neq. intro Heq. apply Hne. apply str_int_inj. exact Heq. }
  split; apply filter_ext_in; intros j Hj; rewrite (Htest j Hj); reflexivity.
Qed.

(** X15: on a queue whose jobs are named [str] of the chat they carry (as
    after any run of the handlers) and have distinct identifiers,
    [get_jobs_by_name(str(c))] returns exactly the jobs that deliver to [c],
    and [/stop] of [c], when it finds [c] in the list it gets, leaves in the
    queue exactly the jobs of the other chats: no job of [c] survives and no
    job of another chat is cancelled.  When it does not find [c], the queue
    is as it was. *)
Theorem stop_cancels_jobs_of_chat (update : Update) (context : CallbackContext)
    (w : World) (q : JobQueue) :
  job_queue w = Some q ->
  queue_ok q ->
  (forall j, In j (jobs q) -> name j = str_int (data j)) ->
  let chat_id := effective_chat_id update in
  get_jobs_by_name (str_int chat_id) w =
    (Return (filter (fun j => data j =? chat_id) (jobs q)), w) /\
  job_queue (snd (stop env update context w)) =
    (if match supabase_execute env (clock w) with
        | None => existsb (Z.eqb chat_id) (subscribers w)
        | Some _ => false
        end
     then Some {| next_id := next_id q;
                  jobs := filter (fun j => negb (data j =? chat_id)) (jobs q) |}
     else Some q).
Proof.
  intros Hq Hqok Hnames chat_id.
  destruct (named_by_chat chat_id (jobs q) Hnames) as [Hsame Hother].
  split.
  - unfold get_jobs_by_name. rewrite Hq, Hsame. reflexivity.
  - assert (Hok : world_ok w) by (unfold world_ok; rewrite Hq; exact Hqok).
    destruct (stop_effect env update context w Hok) as [_ Hjq].
    cbv zeta in Hjq. fold chat_id in Hjq. rewrite Hjq, Hq, Hother. reflexivity.
Qed.

End Loop.

(** ** Loading the module *)

Lemma unset_false (v : option string) :
  unset v = false <-> exists s, v = Some s /\ s <> ""%string.
Proof.
  destruct v as [s | ]; cbn; split.
  - intro H. exists s. split; [reflexivity | ]. apply String.eqb_neq. exact H.
  - intros (s' & Heq & Hne). injection Heq as <-. apply String.eqb_neq. exact Hne.
  - discriminate.
  - intros (s' & Heq & _). discriminate Heq.
Qed.

(** X16: the module goes on to create the store client exactly when the
    four variables are set and not empty: an empty value counts as a missing
    one.  The client gets the two store variables as they are.  When
    [NASA_API_KEY] or [TELEGRAM_TOKEN] is missing the module exits after the
    log line about those two, whatever the store variables are; when only a
    store variable is missing, after the log line about the store. *)
Theorem load_needs_all_four (getenv : string -> option string) :
  ((exists url key, load getenv = Client url key) <->
   (forall nm, In nm ["NASA_API_KEY"; "TELEGRAM_TOKEN"; "SUPABASE_URL"; "SUPABASE_KEY"]%string ->
      exists v, getenv nm = Some v /\ v <> ""%string)) /\
  (forall url key, load getenv = Client url key ->
     getenv "SUPABASE_URL" = Some url /\ getenv "SUPABASE_KEY" = Some key) /\
  (unset (getenv "NASA_API_KEY") || unset (getenv "TELEGRAM_TOKEN") = true ->
     load getenv = Exit "NASA_API_KEY ou TELEGRAM_TOKEN não encontrados no .env") /\
  (unset (getenv "NASA_API_KEY") || unset (getenv "TELEGRAM_TOKEN") = false ->
   unset (getenv "SUPABASE_URL") || unset (getenv "SUPABASE_KEY") = true ->
     load getenv = Exit "SUPABASE_URL ou SUPABASE_KEY não encontrados no .env").
Proof.
  unfold load.
  destruct (unset (getenv "NASA_API_KEY") || unset (getenv "TELEGRAM_TOKEN")) eqn:E1.
  - split; [split | split; [ | split]].
    + intros (url & key & H). discriminate H.
    + intro Hall. apply orb_true_iff in E1. destruct E1 as [E | E].
      * assert (Hx : unset (getenv "NASA_API_KEY") = false)
          by (apply unset_false, Hall; cbn; tauto).
        congruence.
      * assert (Hx : unset (getenv "TELEGRAM_TOKEN") = false)
          by (apply unset_false, Hall; cbn; tauto).
        congruence.
    + intros url key H. discriminate H.
    + reflexivity.
    + discriminate.
  - apply orb_false_elim in E1. destruct E1 as [Ha Ht].
    destruct (unset (getenv "SUPABASE_URL") || unset (getenv "SUPABASE_KEY")) eqn:E2.
    + split; [split | split; [ | split]].
      * intros (url & key & H). discriminate H.
      * intro Hall. apply orb_true_iff in E2. destruct E2 as [E | E].
        -- assert (Hx : unset (getenv "SUPABASE_URL") = false)
             by (apply unset_false, Hall; cbn; tauto).
           congruence.
        -- assert (Hx : unset (getenv "SUPABASE_KEY") = false)
             by (apply unset_false, Hall; cbn; tauto).
           congruence.
      * intros url key H. discriminate H.
      * discriminate.
      * reflexivity.
    + apply orb_false_elim in E2. destruct E2 as [Hu Hk].
      split; [split | split; [ | split]].
      * intros _ nm Hnm. apply unset_false.
        cbn in Hnm. destruct Hnm as [<- | [<- | [<- | [<- | []]]]]; assumption.
      * intros _. eexists. eexists. reflexivity.
      * intros url key H. injection H as <- <-.
        apply unset_false in Hu, Hk.
        destruct Hu as (u & -> & _). destruct Hk as (k & -> & _).
        split; reflexivity.
      * discriminate.
      * discriminate.
Qed.

(** ** The numbers of the message *)

Lemma strip_commas_filter (l : list ascii) :
  strip_commas (string_of_list_ascii l) = string_of_list_ascii (filter not_comma l).
Proof.
  induction l as [ | c l IH]; [reflexivity | ].
  cbn. unfold not_comma at 1. destruct (Ascii.eqb c ","%char); cbn; rewrite IH; reflexivity.
Qed.

Lemma group3_commas (l : list ascii) :
  forall k, filter not_comma (group3 l k) = filter not_comma l.
Proof.
  induction l as [ | d rest IH]; intro k; [reflexivity | ].
  cbn [group3]. destruct k as [ | k'].
  - destruct rest as [ | d' rest']; [reflexivity | ].
    cbn [filter]. change (not_comma ","%char) with false. cbv iota.
    rewrite (IH 2%nat). reflexivity.
  - cbn [filter]. rewrite (IH k'). reflexivity.
Qed.

Lemma digits_no_comma (d : Decimal.uint) :
  filter not_comma (list_ascii_of_string (NilEmpty.string_of_uint d)) =
  list_ascii_of_string (NilEmpty.string_of_uint d).
Proof.
  induction d; cbn; try rewrite IHd; reflexivity.
Qed.

Lemma strip_commas_grouped (d : Decimal.uint) :
  strip_commas
    (string_of_list_ascii
       (rev (group3 (rev (list_ascii_of_string (NilZero.string_of_uint d))) 2))) =
  NilZero.string_of_uint d.
Proof.
  rewrite strip_commas_filter, filter_rev, group3_commas, <- filter_rev, rev_involutive.
  assert (H : filter not_comma (list_ascii_of_string (NilZero.string_of_uint d)) =
              list_ascii_of_string (NilZero.string_of_uint d)).
  { destruct d; try apply digits_no_comma. reflexivity. }
  rewrite H. apply string_of_list_ascii_of_string.
Qed.

(** X17: the thousands separators of [f"{n:,}"] are the only thing added to
    the number: taking the commas out of [format_thousands z] gives back
    [str(z)], sign included, for every integer. *)
Theorem format_thousands_strip (z : Z) :
  strip_commas (format_thousands z) = str_int z.
Proof.
  unfold format_thousands, str_int.
  destruct z as [ | p | p]; cbn [Z.ltb Z.compare Z.abs_N N.to_uint Z.to_int].
  - reflexivity.
  - apply strip_commas_grouped.
  - cbn [append strip_commas NilZero.string_of_int].
    change (Ascii.eqb "-"%char ","%char) with false. cbv iota.
    f_equal. apply strip_commas_grouped.
Qed.

(** ** Failures of the feed query, and the whole of [/stop] *)

Section Failures.

Variable py : Builtins.
Variable env : Env.

(** X18: when the feed answers with a status other than 200,
    [get_asteroid_message] returns [erro_nasa] after logging one line with
    the status code; it reads no body and calls no translator. *)
Theorem get_asteroid_message_status (w : World) (res : Response) :
  requests_get env (S (clock w)) (feed_url env (now env (clock w))) = Return res ->
  status_code res <> 200 ->
  get_asteroid_message py env w =
    (Return erro_nasa,
     set_log (log w ++ [("Erro na API da NASA (asteroides): " ++
                         str_int (status_code res))%string])
       (set_trace (trace w ++ [HttpGet (feed_url env (now env (clock w)))])
          (set_clock (2 + clock w) w))).
Proof.
  intros Hget Hstatus.
  assert (Hstatus' : negb (status_code res =? 200) = true)
    by (apply negb_true_iff, Z.eqb_neq; exact Hstatus).
  assert (H : ensures (get_asteroid_message py env) w (fun r w' =>
    (r, w') =
      (Return erro_nasa,
       set_log (log w ++ [("Erro na API da NASA (asteroides): " ++
                           str_int (status_code res))%string])
         (set_trace (trace w ++ [HttpGet (feed_url env (now env (clock w)))])
            (set_clock (2 + clock w) w))))).
  { unfold get_asteroid_message, today, http_get. repeat step. reflexivity. }
  unfold ensures in H. rewrite <- H. apply surjective_pairing.
Qed.

(** X19: when the feed query itself raises (no connection, a timeout),
    [get_asteroid_message] returns [erro_processar] after logging one line
    with the exception; the translator is not called. *)
Theorem get_asteroid_message_no_answer (w : World) (e : exn) :
  requests_get env (S (clock w)) (feed_url env (now env (clock w))) = Raise e ->
  get_asteroid_message py env w =
    (Return erro_processar,
     set_log (log w ++ [("Erro ao buscar dados do asteroide: " ++ str_exn e)%string])
       (set_trace (trace w ++ [HttpGet (feed_url env (now env (clock w)))])
          (set_clock (2 + clock w) w))).
Proof.
  intro Hget.
  assert (H : ensures (get_asteroid_message py env) w (fun r w' =>
    (r, w') =
      (Return erro_processar,
       set_log (log w ++ [("Erro ao buscar dados do asteroide: " ++ str_exn e)%string])
         (set_trace (trace w ++ [HttpGet (feed_url env (now env (clock w)))])
            (set_clock (2 + clock w) w))))).
  { unfold get_asteroid_message, today, http_get. repeat step. reflexivity. }
  unfold ensures in H. rewrite <- H. apply surjective_pairing.
Qed.

(** The removal loop makes no external call and logs nothing. *)
Lemma schedule_removal_quiet (j : Job) (w : World) :
  trace (snd (schedule_removal j w)) = trace w /\
  clock (snd (schedule_removal j w)) = clock w /\
  log (snd (schedule_removal j w)) = log w.
Proof.
  unfold schedule_removal.
  destruct (job_queue w) as [q | ]; [ | repeat split].
  destruct (existsb (fun j' => Nat.eqb (job_id j') (job_id j)) (jobs q)); repeat split.
Qed.

Lemma for_each_schedule_removal_quiet (removed : list Job) :
  forall w,
    trace (snd (for_each removed schedule_removal w)) = trace w /\
    clock (snd (for_each removed schedule_removal w)) = clock w /\
    log (snd (for_each removed schedule_removal w)) = log w.
Proof.
  induction removed as [ | j removed IH]; intro w; [repeat split | ].
  cbn [for_each]. unfold bind.
  destruct (schedule_removal_quiet j w) as (Ht & Hc & Hl).
  destruct (schedule_removal j w) as [[u | e] w1]; cbn [snd] in *.
  - destruct (IH w1) as (Ht' & Hc' & Hl'). repeat split; congruence.
  - repeat split; assumption.
Qed.

(** X20: [/stop] of a chat that is in the table, with a store that answers
    and a job queue: the handler makes the select, the delete and the reply
    [envios_desativados], in this order; it removes every row of the chat
    and every job named after it and keeps the other jobs; it returns what
    the reply returns, so a refused reply leaves the chat unsubscribed all
    the same. *)
Theorem stop_subscribed_calls (update : Update) (context : CallbackContext)
    (w : World) (q : JobQueue) :
  In (effective_chat_id update) (subscribers w) ->
  job_queue w = Some q ->
  queue_ok q ->
  supabase_execute env (clock w) = None ->
  supabase_execute env (S (clock w)) = None ->
  let chat_id := effective_chat_id update in
  exists w',
    stop env update context w =
      (match bot_send env (2 + clock w) with Some e => Raise e | None => Return tt end, w') /\
    trace w' = (trace w ++ [DbSelect; DbDelete chat_id;
                            ReplyText chat_id envios_desativados])%list /\
    subscribers w' = filter (fun row => negb (row =? chat_id)) (subscribers w) /\
    job_queue w' =
      Some {| next_id := next_id q;
              jobs := filter (fun j => negb (String.eqb (name j) (str_int chat_id))) (jobs q) |} /\
    log w' = log w.
Proof.
  intros Hin Hq Hqok Hsel Hdel chat_id.
  assert (Hok : world_ok w) by (unfold world_ok; rewrite Hq; exact Hqok).
  destruct (stop_effect env update context w Hok) as [Hs Hjq].
  cbv zeta in Hs, Hjq. fold chat_id in Hs, Hjq.
  apply existsb_eqb_In in Hin. fold chat_id in Hin.
  rewrite Hsel, Hin, Hdel in Hs. rewrite Hsel, Hin, Hq in Hjq.
  assert (Hrun : exists w',
            stop env update context w =
              (match bot_send env (2 + clock w) with
               | Some e => Raise e
               | None => Return tt
               end, w') /\
            trace w' = (trace w ++ [DbSelect; DbDelete chat_id;
                                    ReplyText chat_id envios_desativados])%list /\
            log w' = log w).
  { unfold stop, bind. fold chat_id.
    rewrite get_subscribers_run, Hsel, Hin, remove_subscriber_run.
    change (clock (called DbSelect w)) with (S (clock w)). rewrite Hdel.
    unfold get_jobs_by_name.
    cbn [job_queue set_subscribers called set_trace set_clock]. rewrite Hq.
    match goal with
    | |- context [for_each ?js schedule_removal ?w2] =>
        pose proof (for_each_schedule_removal_quiet js w2) as (Ht3 & Hc3 & Hl3);
        destruct (for_each_schedule_removal js w2 q) as (w3 & Hrun & _ & _)
    end.
    - exact Hq.
    - apply filter_ids_distinct. apply Hqok.
    - intros i Hi. apply in_map_iff in Hi. destruct Hi as (x & Hx & Hinx).
      apply filter_In in Hinx. apply in_map_iff. exists x. tauto.
    - rewrite Hrun in *. cbn [snd] in Ht3, Hc3, Hl3. rewrite reply_text_run.
      eexists. split; [rewrite Hc3; reflexivity | ].
      unfold called. tidy. rewrite Ht3, Hl3. unfold called. tidy.
      rewrite <- !app_assoc. split; reflexivity. }
  destruct Hrun as (w' & Hrun & Ht & Hl).
  rewrite Hrun in Hs, Hjq. cbn [snd] in Hs, Hjq.
  exists w'. repeat split; assumption.
Qed.

End Failures.

(** ** More concrete runs *)

(** Chat 7 subscribes and unsubscribes again on a bot that knows 12345. *)
Lemma add_then_remove_witness :
  subscribers
    (snd (remove_subscriber Sample.env 7
            (snd (add_subscriber Sample.env 7 Sample.subscribed)))) = [12345].
Proof.
  destruct (add_then_remove Sample.env 7 Sample.subscribed) as (_ & H & _).
  - reflexivity.
  - reflexivity.
  - apply H. simpl. lia.
Defined.

(** A store that is down: nothing is added, one line is logged. *)
Lemma store_failure_is_swallowed_witness :
  fst (add_subscriber Sample2.env_store_down 7 Sample.subscribed) = Return tt /\
  subscribers (snd (add_subscriber Sample2.env_store_down 7 Sample.subscribed)) = [12345] /\
  log (snd (add_subscriber Sample2.env_store_down 7 Sample.subscribed)) =
    ["Erro ao adicionar inscrito: connection refused"%string].
Proof.
  destruct (store_failure_is_swallowed Sample2.env_store_down 7 Sample.subscribed
              (External "connection refused")) as (H & _).
  - reflexivity.
  - exact H.
Defined.

Lemma add_then_list_witness :
  fst (get_subscribers Sample.env (snd (add_subscriber Sample.env 7 Sample.subscribed))) =
    Return [12345; 7].
Proof.
  destruct (add_then_list Sample.env 7 Sample.subscribed) as (H & _).
  - reflexivity.
  - reflexivity.
  - exact H.
Defined.

(** The sample search has one item, whose first link is the picture. *)
Lemma imagem_espacial_aleatoria_found_witness :
  fst (imagem_espacial_aleatoria Sample.py Sample.env Sample.no_queue) =
    Return (VStr "https://images.example/a.jpg").
Proof.
  apply (imagem_espacial_aleatoria_found Sample.py Sample.env Sample.no_queue).
  unfold image_found.
  exists (VStr "galaxy"),
    {| status_code := 200; json := Return (Sample.search (VStr "https://images.example/a.jpg")) |},
    (Sample.search (VStr "https://images.example/a.jpg")),
    (VDict [("items", VList [VDict [("links", VList [VDict [("href", VStr "https://images.example/a.jpg")]])]])]),
    (VList [VDict [("links", VList [VDict [("href", VStr "https://images.example/a.jpg")]])]]),
    (VDict [("links", VList [VDict [("href", VStr "https://images.example/a.jpg")]])]),
    (VList [VDict [("href", VStr "https://images.example/a.jpg")]]),
    (VDict [("href", VStr "https://images.example/a.jpg")]).
  repeat split; reflexivity.
Defined.

(** The sample feed has one asteroid, 1,234,567 km away at 48,520 km/h. *)
Lemma get_asteroid_message_found_witness :
  fst (get_asteroid_message Sample.py Sample.env Sample.no_queue) =
    Return ("[pt] " ++ msg_original Sample.py (VStr "(2020 AB1)") 1234567 48520)%string.
Proof.
  apply (get_asteroid_message_found Sample.py Sample.env Sample.no_queue
           (VStr "(2020 AB1)") 1234567 48520).
  unfold asteroid_found.
  exists {| status_code := 200; json := Return (Sample.feed [Sample.asteroide]) |},
    (Sample.feed [Sample.asteroide]),
    (VDict [(Sample.hoje, VList [Sample.asteroide])]),
    (VList [Sample.asteroide]),
    Sample.asteroide,
    (VList [VDict [("relative_velocity", VDict [("kilometers_per_hour", VStr "48520.25")]);
                   ("miss_distance", VDict [("kilometers", VStr "1234567.5")])]]),
    (VDict [("relative_velocity", VDict [("kilometers_per_hour", VStr "48520.25")]);
            ("miss_distance", VDict [("kilometers", VStr "1234567.5")])]),
    (VDict [("kilometers_per_hour", VStr "48520.25")]),
    (VStr "48520.25"),
    (VDict [("kilometers", VStr "1234567.5")]),
    (VStr "1234567.5"),
    48520.25%float, 1234567.5%float.
  repeat split; vm_compute; reflexivity.
Defined.

(** Chat 12345 stops; chat 7 keeps its row and its job. *)
Lemma stop_leaves_other_chats_witness :
  filter (Z.eqb 7)
    (subscribers (snd (stop Sample.env (Sample.update 12345) Sample.context
                         Sample2.two_chats))) = [7] /\
  jobs_named "7" (snd (stop Sample.env (Sample.update 12345) Sample.context
                         Sample2.two_chats)) = [daily_job 0 7].
Proof.
  apply (stop_leaves_other_chats Sample.env (Sample.update 12345) Sample.context
           Sample2.two_chats 7).
  - simpl. split; [repeat constructor; simpl; lia | repeat constructor].
  - simpl. lia.
Defined.

(** The store is down when chat 12345, subscribed, sends [/stop]. *)
Lemma stop_when_select_fails_witness :
  exists w',
    stop Sample2.env_store_down (Sample.update 12345) Sample.context Sample.subscribed =
      (Return tt, w') /\
    subscribers w' = [12345] /\
    job_queue w' = Some {| next_id := 1; jobs := [daily_job 0 12345] |} /\
    trace w' = [DbSelect; ReplyText 12345 nenhum_envio] /\
    log w' = ["Erro ao buscar inscritos: connection refused"%string].
Proof.
  apply (stop_when_select_fails Sample2.env_store_down (Sample.update 12345)
           Sample.context Sample.subscribed (External "connection refused")).
  reflexivity.
Defined.

(** Chat 12345 sends [/start] twice. *)
Lemma start_twice_duplicates_witness :
  subscribers
    (snd (start Sample.py Sample.env (Sample.update 12345) Sample.context
            (snd (start Sample.py Sample.env (Sample.update 12345) Sample.context
                    Sample.fresh_queue)))) = [12345; 12345] /\
  job_queue
    (snd (start Sample.py Sample.env (Sample.update 12345) Sample.context
            (snd (start Sample.py Sample.env (Sample.update 12345) Sample.context
                    Sample.fresh_queue)))) =
    Some {| next_id := 2; jobs := [daily_job 0 12345; daily_job 1 12345] |} /\
  jobs_named "12345"
    (snd (start Sample.py Sample.env (Sample.update 12345) Sample.context
            (snd (start Sample.py Sample.env (Sample.update 12345) Sample.context
                    Sample.fresh_queue)))) = [daily_job 0 12345; daily_job 1 12345].
Proof.
  apply (start_twice_duplicates Sample.py Sample.env (Sample.update 12345)
           Sample.context Sample.context Sample.fresh_queue Sample.empty_queue).
  - reflexivity.
  - vm_compute. reflexivity.
  - vm_compute. reflexivity.
  - vm_compute. reflexivity.
  - vm_compute. reflexivity.
Defined.

(** The store refuses the insert of chat 12345; [/stop] then leaves job 0. *)
Lemma start_with_failed_insert_leaves_job_witness :
  subscribers
    (snd (stop Sample2.env_insert_fails (Sample.update 12345) Sample.context
            (snd (start Sample.py Sample2.env_insert_fails (Sample.update 12345)
                    Sample.context Sample.fresh_queue)))) = [] /\
  job_queue
    (snd (stop Sample2.env_insert_fails (Sample.update 12345) Sample.context
            (snd (start Sample.py Sample2.env_insert_fails (Sample.update 12345)
                    Sample.context Sample.fresh_queue)))) =
    Some {| next_id := 1; jobs := [daily_job 0 12345] |} /\
  In (daily_job 0 12345)
    (jobs_named "12345"
       (snd (stop Sample2.env_insert_fails (Sample.update 12345) Sample.context
               (snd (start Sample.py Sample2.env_insert_fails (Sample.update 12345)
                       Sample.context Sample.fresh_queue))))).
Proof.
  apply (start_with_failed_insert_leaves_job Sample.py Sample2.env_insert_fails
           (Sample.update 12345) Sample.context Sample.context Sample.fresh_queue
           Sample.empty_queue
           (External "duplicate key value violates unique constraint")).
  - reflexivity.
  - simpl. split; constructor.
  - reflexivity.
  - simpl. lia.
  - vm_compute. reflexivity.
Defined.

(** Telegram refuses every call: [/start] raises at its reply and job 0 is
    not registered. *)
Lemma start_with_queue_calls_witness :
  exists calls ev w',
    start Sample.py Sample.env_bot_down (Sample.update 12345) Sample.context
      Sample.fresh_queue =
      (match bot_send Sample.env_bot_down (pred (clock w')) with
       | Some e => Raise e
       | None => Return tt
       end, w') /\
    trace w' = (DbInsert 12345 :: calls ++ [ev; ReplyText 12345 bot_iniciado])%list /\
    forallb is_fetch calls = true /\
    is_delivery 12345 ev = true /\
    job_queue w' = Some Sample.empty_queue.
Proof.
  apply (start_with_queue_calls Sample.py Sample.env_bot_down (Sample.update 12345)
           Sample.context Sample.fresh_queue Sample.empty_queue).
  reflexivity.
Defined.

(** Three chats come and go. *)
Lemma run_keeps_jobs_daily_witness :
  NoDup (map job_id
           (all_jobs (run Sample.py Sample.env
                        [Start (Sample.update 7); Start (Sample.update 12345);
                         Fires (daily_job 0 7); Stop (Sample.update 7);
                         Start (Sample.update 12345)]
                        Sample.fresh_queue))) /\
  forall j,
    In j (all_jobs (run Sample.py Sample.env
                      [Start (Sample.update 7); Start (Sample.update 12345);
                       Fires (daily_job 0 7); Stop (Sample.update 7);
                       Start (Sample.update 12345)]
                      Sample.fresh_queue)) ->
    time j = {| hour := 10; minute := 0; utcoffset_hours := -3 |} /\
    callback j = SendPeriodicMessage /\
    name j = str_int (data j).
Proof.
  apply (run_keeps_jobs_daily Sample.py Sample.env
           [Start (Sample.update 7); Start (Sample.update 12345);
            Fires (daily_job 0 7); Stop (Sample.update 7);
            Start (Sample.update 12345)]
           Sample.fresh_queue).
  reflexivity.
Defined.

(** Chat 12345 stops on the bot of chats 7 and 12345: the lookup finds job
    1 and the queue is left with job 0. *)
Lemma stop_cancels_jobs_of_chat_witness :
  get_jobs_by_name "12345" Sample2.two_chats =
    (Return [daily_job 1 12345], Sample2.two_chats) /\
  job_queue (snd (stop Sample.env (Sample.update 12345) Sample.context Sample2.two_chats)) =
    Some {| next_id := 2; jobs := [daily_job 0 7] |}.
Proof.
  apply (stop_cancels_jobs_of_chat Sample.env (Sample.update 12345) Sample.context
           Sample2.two_chats {| next_id := 2; jobs := [daily_job 0 7; daily_job 1 12345] |}).
  - reflexivity.
  - simpl. split; [repeat constructor; simpl; lia | repeat constructor].
  - simpl. intros j [<- | [<- | []]]; reflexivity.
Defined.

Lemma get_asteroid_message_status_witness :
  fst (get_asteroid_message Sample.py Sample2.env_feed_500 Sample.no_queue) = Return erro_nasa /\
  log (snd (get_asteroid_message Sample.py Sample2.env_feed_500 Sample.no_queue)) =
    ["Erro na API da NASA (asteroides): 500"%string].
Proof.
  rewrite (get_asteroid_message_status Sample.py Sample2.env_feed_500 Sample.no_queue
             {| status_code := 500; json := Raise (ValueError "Expecting value") |}).
  - split; reflexivity.
  - reflexivity.
  - simpl. lia.
Defined.

Lemma get_asteroid_message_no_answer_witness :
  fst (get_asteroid_message Sample.py Sample2.env_offline Sample.no_queue) =
    Return erro_processar /\
  log (snd (get_asteroid_message Sample.py Sample2.env_offline Sample.no_queue)) =
    ["Erro ao buscar dados do asteroide: Max retries exceeded"%string].
Proof.
  rewrite (get_asteroid_message_no_answer Sample.py Sample2.env_offline Sample.no_queue
             (External "Max retries exceeded")).
  - split; reflexivity.
  - reflexivity.
Defined.

(** Chat 12345, subscribed with its job, sends [/stop]. *)
Lemma stop_subscribed_calls_witness :
  exists w',
    stop Sample.env (Sample.update 12345) Sample.context Sample.subscribed = (Return tt, w') /\
    trace w' = [DbSelect; DbDelete 12345; ReplyText 12345 envios_desativados] /\
    subscribers w' = [] /\
    job_queue w' = Some {| next_id := 1; jobs := [] |} /\
    log w' = [].
Proof.
  apply (stop_subscribed_calls Sample.env (Sample.update 12345) Sample.context
           Sample.subscribed {| next_id := 1; jobs := [daily_job 0 12345] |}).
  - simpl. lia.
  - reflexivity.
  - simpl. split; repeat constructor. simpl. lia.
  - reflexivity.
  - reflexivity.
Defined.

